(** * Sortly API connector: response normalisation and endpoint operations

    A shallow embedding of the connector classes of the repository:

    - [Legacy]      the [Sortly] class built on request-promise-native,
                    version 1.1.5: [get]/[post]/[put]/[delete] and
                    [handleResponse(resp, reqbody, req)];
    - [Connector]   the [SortlyConnector] class built on node-fetch:
                    [createItem], [fetchItem], [moveItem], [updateItem],
                    [doFetch], [handleNotOk], with rate-limit bookkeeping;
    - [Connector0]  the first [SortlyConnector], of [src/sortly.js]:
                    [doFetch] and [handleNotOk] only;
    - [LegacyFirst] the revision of [Sortly] that precedes 1.1.5, whose
                    [handleResponse(resp)] takes the response alone.

    JavaScript values are a small inductive type, exceptions are a sum type,
    and every method is a function in a state-and-exception monad whose state
    holds the connector object and the list of requests put on the wire.
    [async]/[await] is sequential composition; [debug], [verbose] and
    [console.error] only log and are dropped.  The libraries underneath
    (node-fetch, request-promise-native, query-string, qs) are not part of
    the repository: the network and the query-string encoder are parameters,
    and a response carries what [response.json()] makes of its body. *)

From Stdlib Require Import ZArith String Ascii List Bool Lia.
From stdpp Require Import base option gmap strings pretty.
Import ListNotations.

Set Warnings "-register-all".
Local Open Scope string_scope.
Local Open Scope Z_scope.

(** ** JavaScript values *)

(** Numbers are the integer-valued ones (ids, quantities, status codes);
    objects keep their properties in insertion order, as [JSON.stringify]
    and [JSON.parse] see them. *)
Inductive JsVal : Type :=
  | JUndefined
  | JNull
  | JBool (b : bool)
  | JNum (z : Z)
  | JString (s : string)
  | JArray (elems : list JsVal)
  | JObject (props : list (string * JsVal)).

(** ToBoolean: what [if (v)], [!v] and [v || w] look at. *)
Definition truthy (v : JsVal) : bool :=
  match v with
  | JUndefined | JNull => false
  | JBool b => b
  | JNum z => negb (z =? 0)
  | JString s => negb (String.eqb s "")
  | JArray _ | JObject _ => true
  end.

(** [a || b] *)
Definition js_or (a b : JsVal) : JsVal := if truthy a then a else b.

(** [typeof v === 'undefined' || v === null] *)
Definition is_nullish (v : JsVal) : bool :=
  match v with
  | JUndefined | JNull => true
  | _ => false
  end.

(** [v === n] for a number literal [n]. *)
Definition strict_eq_num (v : JsVal) (n : Z) : bool :=
  match v with
  | JNum z => z =? n
  | _ => false
  end.

Fixpoint lookup_prop (k : string) (props : list (string * JsVal)) : option JsVal :=
  match props with
  | [] => None
  | (k', v) :: rest => if String.eqb k k' then Some v else lookup_prop k rest
  end.

(** Own-property read [v.k] on a value that is neither [undefined] nor
    [null], for the data property names the connector reads ([name], [id],
    [data], [message]); primitives and arrays have no such property. *)
Definition own_prop (v : JsVal) (k : string) : JsVal :=
  match v with
  | JObject props => default JUndefined (lookup_prop k props)
  | _ => JUndefined
  end.

Definition join_with (sep : string) (parts : list string) : string :=
  match parts with
  | [] => ""
  | p :: ps => fold_left (fun acc q => acc +:+ sep +:+ q) ps p
  end.

(** ToString, as template literals and the [Error] constructor apply it. *)
Fixpoint ToString (v : JsVal) : string :=
  match v with
  | JUndefined => "undefined"
  | JNull => "null"
  | JBool true => "true"
  | JBool false => "false"
  | JNum z => pretty z
  | JString s => s
  | JArray elems =>
      join_with ","
        ((fix each (l : list JsVal) : list string :=
            match l with
            | [] => []
            | x :: l' => (if is_nullish x then "" else ToString x) :: each l'
            end) elems)
  | JObject _ => "[object Object]"
  end.

(** ** JSON.stringify *)

Definition dquote : ascii := "034"%char.
Definition backslash : ascii := "092"%char.

Definition hex_digit (n : N) : ascii :=
  if (n <? 10)%N then ascii_of_N (48 + n) else ascii_of_N (87 + n).

(** QuoteJSONString on one code unit. *)
Definition json_escape (c : ascii) : string :=
  let n := N_of_ascii c in
  if Ascii.eqb c dquote then String backslash (String dquote "")
  else if Ascii.eqb c backslash then String backslash (String backslash "")
  else if (n =? 8)%N then String backslash "b"
  else if (n =? 9)%N then String backslash "t"
  else if (n =? 10)%N then String backslash "n"
  else if (n =? 12)%N then String backslash "f"
  else if (n =? 13)%N then String backslash "r"
  else if (n <? 32)%N then
    String backslash ("u00" +:+ String (hex_digit (n / 16)) (String (hex_digit (n mod 16)) ""))
  else String c "".

Fixpoint json_escape_all (s : string) : string :=
  match s with
  | EmptyString => ""
  | String c rest => json_escape c +:+ json_escape_all rest
  end.

Definition json_quote (s : string) : string :=
  String dquote (json_escape_all s +:+ String dquote "").

(** [JSON.stringify(v)]; [None] is the result [undefined].  Properties whose
    value serialises to [undefined] are skipped, such array elements print
    as [null]. *)
Fixpoint JSON_stringify (v : JsVal) : option string :=
  match v with
  | JUndefined => None
  | JNull => Some "null"
  | JBool true => Some "true"
  | JBool false => Some "false"
  | JNum z => Some (pretty z)
  | JString s => Some (json_quote s)
  | JArray elems =>
      Some ("[" +:+
        join_with ","
          ((fix each (l : list JsVal) : list string :=
              match l with
              | [] => []
              | x :: l' => default "null" (JSON_stringify x) :: each l'
              end) elems)
        +:+ "]")
  | JObject props =>
      Some ("{" +:+
        join_with ","
          ((fix each (l : list (string * JsVal)) : list string :=
              match l with
              | [] => []
              | (k, x) :: l' =>
                  match JSON_stringify x with
                  | Some s => (json_quote k +:+ ":" +:+ s) :: each l'
                  | None => each l'
                  end
              end) props)
        +:+ "}")
  end.

(** A serialised value inside a template literal: [undefined] prints as such. *)
Definition stringified (v : JsVal) : string :=
  default "undefined" (JSON_stringify v).

(** The [message] an [Error] gets from its constructor argument. *)
Definition error_message (msg : JsVal) : string :=
  match msg with
  | JUndefined => ""
  | _ => ToString msg
  end.

(** ** HTTP headers *)

Definition lower_ascii (c : ascii) : ascii :=
  let n := N_of_ascii c in
  if ((65 <=? n) && (n <=? 90))%N then ascii_of_N (n + 32) else c.

Fixpoint lower (s : string) : string :=
  match s with
  | EmptyString => ""
  | String c rest => String (lower_ascii c) (lower rest)
  end.

(** Received headers, keyed by lower-case name as Node delivers them. *)
Abbreviation Headers := (gmap string string).

(** [headers[name]] on the plain object of request-promise-native. *)
Definition header_index (h : Headers) (name : string) : JsVal :=
  match h !! name with
  | Some v => JString v
  | None => JUndefined
  end.

(** [headers.get(name)] of node-fetch: case-insensitive, [null] when absent. *)
Definition Headers_get (h : Headers) (name : string) : JsVal :=
  match h !! lower name with
  | Some v => JString v
  | None => JNull
  end.

(** [Object.assign(target, source)] on header hashes. *)
Definition Object_assign (target source : gmap string string) : gmap string string :=
  source ∪ target.

(** ** Exceptions and the execution monad *)

(** The full response of request-promise-native ([json: true]: [body] is the
    decoded body, or the raw text when it does not decode). *)
Record IncomingMessage : Type := mkIncoming {
  im_statusCode : Z;
  im_headers : Headers;
  im_body : JsVal
}.

Inductive Exn : Type :=
  | Error (message : string)
  | RateLimitExceeded (message : string)
  | ApiError (message : string) (status : JsVal)
  | ApiAuthError (message : string) (status : JsVal)
  | TypeError (message : string)
  | ReferenceError (message : string)
  | FetchError (message : string)
  | StatusCodeError (message : string) (response : IncomingMessage)
  | RequestError (message : string).

(** [ex instanceof ApiError]; [ApiAuthError extends ApiError] in the
    rate-limit aware connector. *)
Definition instanceof_ApiError (e : Exn) : bool :=
  match e with
  | ApiError _ _ | ApiAuthError _ _ => true
  | _ => false
  end.

(** [ex.status] *)
Definition exn_status (e : Exn) : JsVal :=
  match e with
  | ApiError _ st | ApiAuthError _ st => st
  | _ => JUndefined
  end.

Inductive Completion (A : Type) : Type :=
  | Return (a : A)
  | Throw (e : Exn).
Arguments Return {A} a.
Arguments Throw {A} e.

Definition M (S A : Type) : Type := S -> Completion A * S.

Definition ret {S A} (a : A) : M S A := fun s => (Return a, s).
Definition throw {S A} (e : Exn) : M S A := fun s => (Throw e, s).
Definition bind {S A B} (c : M S A) (k : A -> M S B) : M S B :=
  fun s =>
    match c s with
    | (Return a, s') => k a s'
    | (Throw e, s') => (Throw e, s')
    end.
Definition try_catch {S A} (c : M S A) (handler : Exn -> M S A) : M S A :=
  fun s =>
    match c s with
    | (Return a, s') => (Return a, s')
    | (Throw e, s') => handler e s'
    end.
Definition get_state {S} : M S S := fun s => (Return s, s).
Definition modify {S} (f : S -> S) : M S unit := fun s => (Return tt, f s).

Notation "x <- c ;; k" := (bind c (fun x => k))
  (at level 100, c at next level, right associativity).
Notation "c ;;; k" := (bind c (fun _ => k))
  (at level 100, right associativity).

(** [s] occurs inside [t]. *)
Definition contains (t s : string) : Prop :=
  exists pre post, t = pre +:+ s +:+ post.

(** Property read [v.k] as the engine does it: reading from [undefined] or
    [null] is a [TypeError]. *)
Definition get_prop {S} (v : JsVal) (k : string) : M S JsVal :=
  if is_nullish v
  then throw (TypeError ("Cannot read property '" +:+ k +:+ "' of " +:+ ToString v))
  else ret (own_prop v k).

(** [JSON.stringify(v)] as a value. *)
Definition stringify_val (v : JsVal) : JsVal :=
  match JSON_stringify v with
  | Some s => JString s
  | None => JUndefined
  end.

(** A name between double quotes, as it appears inside the messages. *)
Definition quoted (s : string) : string :=
  String dquote (s +:+ String dquote "").

(** ** The rate-limit aware [SortlyConnector] (node-fetch) *)

Module Connector.

Record SortlyConnector : Type := mkConnector {
  base_url : string;
  api_token : string;
  rate_limit_max : JsVal;
  rate_limit_remaining : JsVal;
  rate_limit_reset : JsVal
}.

(** [config.base_url || 'https://api.sortly.co/api/v1'] *)
Definition constructor (config_base_url : option string) (config_api_token : string)
  : SortlyConnector :=
  {| base_url :=
       match config_base_url with
       | Some u => if String.eqb u "" then "https://api.sortly.co/api/v1" else u
       | None => "https://api.sortly.co/api/v1"
       end;
     api_token := config_api_token;
     rate_limit_max := JNull;
     rate_limit_remaining := JNull;
     rate_limit_reset := JNull |}.

(** The [options] hash of [doFetch]. *)
Record Options : Type := mkOptions {
  opt_headers : option (gmap string string);
  opt_retries : JsVal
}.

(** What [fetch(full_url, fetchOpts)] is called with. *)
Record FetchCall : Type := mkCall {
  fc_url : string;
  fc_method : string;
  fc_headers : gmap string string;
  fc_body : option string
}.

(** A node-fetch response; [json_body] is what [response.json()] decodes,
    [None] when the body is not JSON. *)
Record Response : Type := mkResponse {
  status : Z;
  headers : Headers;
  json_body : option JsVal
}.

(** [response.ok] *)
Definition ok (r : Response) : bool := (200 <=? status r) && (status r <? 300).

Record World : Type := mkWorld {
  self : SortlyConnector;
  wire : list FetchCall
}.

Definition set_rate_limits (mx rem rst : JsVal) (w : World) : World :=
  {| self := {| base_url := base_url (self w);
                api_token := api_token (self w);
                rate_limit_max := mx;
                rate_limit_remaining := rem;
                rate_limit_reset := rst |};
     wire := wire w |}.

(** [response.json()] *)
Definition json (r : Response) : M World JsVal :=
  match json_body r with
  | Some v => ret v
  | None => throw (FetchError "invalid json response body")
  end.

(** [a & b] on two comparisons *)
Definition bit_and (a b : bool) : Z := Z.land (Z.b2z a) (Z.b2z b).

Definition default_headers (token : string) : gmap string string :=
  {[ "Content-Type" := "application/json";
     "User-Agent" := "Apigrate Sortly Connector/2.x";
     "Authorization" := "Bearer " +:+ token ]}.

Section WithTransport.

(** The two collaborators: [qs.stringify] of query-string and the
    network behind [fetch]. *)
Variable qs_stringify : JsVal -> string.
Variable fetch : FetchCall -> Completion Response.

Definition await_fetch (call : FetchCall) : M World Response :=
  fun w => (fetch call, {| self := self w; wire := (wire w ++ [call])%list |}).

Definition handleNotOk (response : Response) : M World JsVal :=
  result <- json response ;;
  (if negb (bit_and (300 <=? status response) (status response <? 400) =? 0) then
     (* redirection *)
     ret tt
   else if negb (bit_and (400 <=? status response) (status response <? 500) =? 0) then
     if (status response =? 401) || (status response =? 403) then
       throw (ApiAuthError (error_message (stringify_val result)) (JNum (status response)))
     else
       (* other client errors *)
       message <- get_prop result "message" ;;
       throw (ApiError (error_message message) (JNum (status response)))
   else if 500 <=? status response then
     (* server side errors *)
     message <- get_prop result "message" ;;
     throw (ApiError (error_message message) (JNum (status response)))
   else
     throw (ReferenceError "err is not defined")) ;;;
  ret result.

Definition doFetch (method url : string) (query payload : JsVal)
    (options : option Options) : M World JsVal :=
  let options :=
    match options with
    | Some o => o
    | None => {| opt_headers := None; opt_retries := JUndefined |}
    end in
  let options :=
    if negb (truthy (opt_retries options))
    then {| opt_headers := opt_headers options; opt_retries := JNum 0 |}
    else options in
  w <- get_state ;;
  let fetchOpts_headers := default_headers (api_token (self w)) in
  (* Assign additional headers as provided directly. *)
  let fetchOpts_headers :=
    match opt_headers options with
    | Some h => Object_assign fetchOpts_headers h
    | None => fetchOpts_headers
    end in
  let qstring := if truthy query then "?" +:+ qs_stringify query else "" in
  let full_url := url +:+ qstring in
  let body := if truthy payload then JSON_stringify payload else None in
  try_catch
    (response <- await_fetch {| fc_url := full_url; fc_method := method;
                                fc_headers := fetchOpts_headers; fc_body := body |} ;;
     modify (set_rate_limits
               (Headers_get (headers response) "Sortly-Rate-Limit-Max")
               (Headers_get (headers response) "Sortly-Rate-Limit-Remaining")
               (Headers_get (headers response) "Sortly-Rate-Limit-Reset")) ;;;
     if ok response then
       if status response =? 204 then ret (JObject [])
       else json response
     else handleNotOk response)
    (fun err =>
       if instanceof_ApiError err then throw err
       else (* Unhandled errors are noted and re-thrown. *) throw err).

(** [if(!result || !result.data) return null; return result.data;] *)
Definition unwrap_data (result : JsVal) : JsVal :=
  if negb (truthy result) || negb (truthy (own_prop result "data"))
  then JNull
  else own_prop result "data".

Definition createItem (item : JsVal) : M World JsVal :=
  if negb (truthy item) then
    throw (ApiError "Unable to create item. Data is missing." JUndefined)
  else if negb (truthy (own_prop item "name")) then
    throw (ApiError ("Unable to create item. Missing " +:+ quoted "name" +:+ " property.")
                    JUndefined)
  else
    w <- get_state ;;
    result <- doFetch "POST" (base_url (self w) +:+ "/items") JNull item None ;;
    ret (unwrap_data result).

Definition deleteItem (id : JsVal) : M World JsVal :=
  if negb (truthy id) then
    throw (ApiError ("Unable to delete item. Missing " +:+ quoted "id" +:+ " property.")
                    JUndefined)
  else
    w <- get_state ;;
    doFetch "DELETE" (base_url (self w) +:+ "/items/" +:+ ToString id)
            JUndefined JUndefined None ;;;
    ret JUndefined.

Definition fetchItem (id include : JsVal) : M World JsVal :=
  if negb (truthy id) then
    throw (ApiError ("Unable to fetch item. Missing " +:+ quoted "id" +:+ " property.")
                    JUndefined)
  else
    let q := if truthy include then JObject [("include", include)] else JNull in
    try_catch
      (w <- get_state ;;
       result <- doFetch "GET" (base_url (self w) +:+ "/items/" +:+ ToString id)
                         q JUndefined None ;;
       ret (unwrap_data result))
      (fun ex =>
         if instanceof_ApiError ex && strict_eq_num (exn_status ex) 404
         then ret JNull
         else throw ex).

Definition moveItem (item_id quantity folder_id leave_zero_quantity : JsVal)
  : M World JsVal :=
  if negb (truthy item_id) then
    throw (ApiError "Unable to update item. Data is missing." JUndefined)
  else if is_nullish quantity then
    throw (ApiError ("Unable to move item. Missing " +:+ quoted "quantity" +:+ " property.")
                    JUndefined)
  else
    let payload :=
      ([("quantity", quantity)]
       ++ (if truthy folder_id then [("folder_id", folder_id)] else [])
       ++ (if negb (is_nullish leave_zero_quantity)
           then [("leave_zero_quantity", leave_zero_quantity)] else []))%list in
    w <- get_state ;;
    result <- doFetch "POST"
                (base_url (self w) +:+ "/items/" +:+ ToString item_id +:+ "/move")
                JNull (JObject payload) None ;;
    ret (unwrap_data result).

Definition searchItems (search : JsVal) : M World JsVal :=
  w <- get_state ;;
  doFetch "POST" (base_url (self w) +:+ "/items/search") JNull search None.

Definition updateItem (item : JsVal) : M World JsVal :=
  if negb (truthy item) then
    throw (ApiError "Unable to update item. Data is missing." JUndefined)
  else if negb (truthy (own_prop item "id")) then
    throw (ApiError ("Unable to update item. Missing " +:+ quoted "id" +:+ " property.")
                    JUndefined)
  else
    w <- get_state ;;
    doFetch "PUT" (base_url (self w) +:+ "/items/" +:+ ToString (own_prop item "id"))
            JNull item None ;;;
    ret JUndefined.

Definition listCustomAttributes (per_page page : JsVal) : M World JsVal :=
  let q := if truthy per_page then JObject [("per_page", per_page)] else JNull in
  let q := if truthy page then JObject [("page", page)] else q in
  w <- get_state ;;
  doFetch "GET" (base_url (self w) +:+ "/custom_fields") q JUndefined None.

End WithTransport.

End Connector.

(** ** The first [SortlyConnector] ([src/sortly.js]) *)

Module Connector0.

Record SortlyConnector : Type := mkConnector {
  base_url : string;
  api_token : string
}.

Record World : Type := mkWorld {
  self : SortlyConnector;
  wire : list Connector.FetchCall
}.

Definition json (r : Connector.Response) : M World JsVal :=
  match Connector.json_body r with
  | Some v => ret v
  | None => throw (FetchError "invalid json response body")
  end.

Section WithTransport.

Variable qs_stringify : JsVal -> string.
Variable fetch : Connector.FetchCall -> Completion Connector.Response.

Definition await_fetch (call : Connector.FetchCall) : M World Connector.Response :=
  fun w => (fetch call, {| self := self w; wire := (wire w ++ [call])%list |}).

(** Here [ApiAuthError extends Error] and takes the message only. *)
Definition handleNotOk (response : Connector.Response) : M World JsVal :=
  result <- json response ;;
  (if negb (Connector.bit_and (300 <=? Connector.status response) (Connector.status response <? 400) =? 0) then
     (* redirection *)
     ret tt
   else if negb (Connector.bit_and (400 <=? Connector.status response) (Connector.status response <? 500) =? 0) then
     if (Connector.status response =? 401) || (Connector.status response =? 403) then
       throw (ApiAuthError (error_message (stringify_val result)) JUndefined)
     else
       (* client errors *)
       ret tt
   else if 500 <=? Connector.status response then
     (* server side errors *)
     ret tt
   else
     throw (ReferenceError "err is not defined")) ;;;
  ret result.

Definition doFetch (method url : string) (query payload : JsVal)
    (options : option Connector.Options) : M World JsVal :=
  let options :=
    match options with
    | Some o => o
    | None => {| Connector.opt_headers := None; Connector.opt_retries := JUndefined |}
    end in
  let options :=
    if negb (truthy (Connector.opt_retries options))
    then {| Connector.opt_headers := Connector.opt_headers options; Connector.opt_retries := JNum 0 |}
    else options in
  w <- get_state ;;
  let fetchOpts_headers := Connector.default_headers (api_token (self w)) in
  (* Assign additional headers as provided directly. *)
  let fetchOpts_headers :=
    match Connector.opt_headers options with
    | Some h => Object_assign fetchOpts_headers h
    | None => fetchOpts_headers
    end in
  let qstring := if truthy query then "?" +:+ qs_stringify query else "" in
  let full_url := url +:+ qstring in
  let body := if truthy payload then JSON_stringify payload else None in
  try_catch
    (response <- await_fetch {| Connector.fc_url := full_url; Connector.fc_method := method;
                                 Connector.fc_headers := fetchOpts_headers; Connector.fc_body := body |} ;;
     if Connector.ok response then json response
     else handleNotOk response)
    (fun err => (* Unhandled errors are noted and re-thrown. *) throw err).

Definition searchItems (search : JsVal) : M World JsVal :=
  w <- get_state ;;
  doFetch "POST" (base_url (self w) +:+ "/items/search") JNull search None.

End WithTransport.

End Connector0.

(** ** The [Sortly] class, version 1.1.5 (request-promise-native) *)

Module Legacy.

Record Sortly : Type := mkSortly {
  rate_limit : JsVal;
  rate_limit_remaining : JsVal;
  rate_limit_reset : JsVal;
  request_id : JsVal
}.

Definition constructor : Sortly :=
  {| rate_limit := JNum 0;
     rate_limit_remaining := JNum 0;
     rate_limit_reset := JNum 0;
     request_id := JNum 0 |}.

(** The [req] object handed to [baseRequest] and to [handleResponse]. *)
Record Req : Type := mkReq {
  method : string;
  uri : string;
  body : JsVal
}.

Record World : Type := mkWorld {
  self : Sortly;
  wire : list Req
}.

(** What [handleResponse] receives as [resp]: either the full response or
    the rejection of the promise; a property the object does not have
    reads as [None] / [JUndefined]. *)
Record Resp : Type := mkResp {
  statusCode : option Z;
  headers : option Headers;
  resp_body : JsVal;
  message : JsVal;
  response : option IncomingMessage
}.

Definition of_response (r : IncomingMessage) : Resp :=
  {| statusCode := Some (im_statusCode r);
     headers := Some (im_headers r);
     resp_body := im_body r;
     message := JUndefined;
     response := None |}.

Definition exn_message (e : Exn) : string :=
  match e with
  | Error m | RateLimitExceeded m | ApiError m _ | ApiAuthError m _
  | TypeError m | ReferenceError m | FetchError m
  | StatusCodeError m _ | RequestError m => m
  end.

Definition of_exn (e : Exn) : Resp :=
  match e with
  | StatusCodeError m r =>
      {| statusCode := Some (im_statusCode r);
         headers := None;
         resp_body := JUndefined;
         message := JString m;
         response := Some r |}
  | _ =>
      {| statusCode := None;
         headers := None;
         resp_body := JUndefined;
         message := JString (exn_message e);
         response := None |}
  end.

(** What the network does with a request: an HTTP response, or no
    response at all. *)
Inductive Transport : Type :=
  | Answered (r : IncomingMessage)
  | Failed (cause : string).

(** [sc >= n] and [sc < n], false on [undefined]. *)
Definition sc_ge (sc : option Z) (n : Z) : bool :=
  match sc with Some z => n <=? z | None => false end.
Definition sc_lt (sc : option Z) (n : Z) : bool :=
  match sc with Some z => z <? n | None => false end.
Definition sc_is (sc : option Z) (n : Z) : bool :=
  match sc with Some z => z =? n | None => false end.
Definition sc_text (sc : option Z) : string :=
  match sc with Some z => pretty z | None => "undefined" end.

Definition nl_tab : string := String "010"%char (String "009"%char "").

Section WithTransport.

Variable qs_stringify : JsVal -> string.
Variable http : Req -> Transport.

(** [this.baseRequest(req)] with [resolveWithFullResponse: true]: the
    promise resolves with the response on 2xx and rejects otherwise. *)
Definition baseRequest (req : Req) : M World IncomingMessage :=
  fun w =>
    let w' := {| self := self w; wire := (wire w ++ [req])%list |} in
    match http req with
    | Answered r =>
        if (200 <=? im_statusCode r) && (im_statusCode r <? 300)
        then (Return r, w')
        else (Throw (StatusCodeError
                       (pretty (im_statusCode r) +:+ " - " +:+ stringified (im_body r)) r),
              w')
    | Failed cause => (Throw (RequestError cause), w')
    end.

Definition handleResponse (resp : Resp) (reqbody : JsVal) (req : Req) : M World JsVal :=
  if sc_ge (statusCode resp) 200 && sc_lt (statusCode resp) 300 then
    match headers resp with
    | None => throw (TypeError "Cannot read property 'sortly-rate-limit-max' of undefined")
    | Some h =>
        modify (fun w =>
          {| self := {| rate_limit := header_index h "sortly-rate-limit-max";
                        rate_limit_remaining := header_index h "sortly-rate-limit-remaining";
                        rate_limit_reset := header_index h "sortly-rate-limit-reset";
                        request_id := header_index h "x-request-id" |};
             wire := wire w |}) ;;;
        if sc_is (statusCode resp) 204 then ret JUndefined (* nothing returned *)
        else ret (resp_body resp)
    end
  else
    (* Client-side errors. *)
    match response resp with
    | None => throw (TypeError "Cannot read property 'headers' of undefined")
    | Some r =>
        let h := im_headers r in
        modify (fun w =>
          {| self := {| rate_limit :=
                          js_or (header_index h "sortly-rate-limit-max")
                                (rate_limit (self w));
                        rate_limit_remaining :=
                          js_or (header_index h "sortly-rate-limit-remaining")
                                (rate_limit_remaining (self w));
                        rate_limit_reset :=
                          js_or (header_index h "sortly-rate-limit-reset")
                                (rate_limit_reset (self w));
                        request_id := header_index h "x-request-id" |};
             wire := wire w |}) ;;;
        let sent := if truthy reqbody then stringified reqbody else "" in
        if sc_ge (statusCode resp) 400 && sc_lt (statusCode resp) 500 then
          if sc_is (statusCode resp) 400 then
            throw (Error ("Request Error on " +:+ method req +:+ " " +:+ uri req
                          +:+ " (HTTP-" +:+ sc_text (statusCode resp) +:+ "). "
                          +:+ ToString (message resp)
                          +:+ nl_tab +:+ "sent:" +:+ sent
                          +:+ nl_tab +:+ "received:" +:+ stringified (im_body r)))
          else if sc_is (statusCode resp) 401 then
            throw (Error ("Authorization Error on " +:+ method req +:+ " " +:+ uri req
                          +:+ " (HTTP-" +:+ sc_text (statusCode resp) +:+ "). "
                          +:+ ToString (message resp)))
          else if sc_is (statusCode resp) 404 then
            if String.eqb (method req) "GET" then
              ret JNull (* Don't throw an error, return null. *)
            else
              throw (Error ("Invalid URI on " +:+ method req +:+ " " +:+ uri req
                            +:+ " (HTTP-" +:+ sc_text (statusCode resp) +:+ ")."))
          else if sc_is (statusCode resp) 429 then
            w <- get_state ;;
            throw (RateLimitExceeded
                     ("Sortly rate limit exceeded on " +:+ method req +:+ " " +:+ uri req
                      +:+ ". Try again in "
                      +:+ ToString (rate_limit_reset (self w)) +:+ " seconds."))
          else
            throw (Error ("Unhandled Error on " +:+ method req +:+ " " +:+ uri req
                          +:+ " (HTTP-" +:+ sc_text (statusCode resp) +:+ "). "
                          +:+ ToString (message resp)))
        else if sc_ge (statusCode resp) 500 then
          throw (Error ("Sortly Server Error on " +:+ method req +:+ " " +:+ uri req
                        +:+ " (HTTP-" +:+ sc_text (statusCode resp) +:+ ")."
                        +:+ nl_tab +:+ "sent:" +:+ sent
                        +:+ nl_tab +:+ "received:" +:+ stringified (im_body r)))
        else
          (* Some other potentially valid response. Return the payload. *)
          throw (ReferenceError "responseBody is not defined")
    end.

Definition path_of (uri : string) (opts : JsVal) : string :=
  let qstring := qs_stringify opts in
  uri +:+ (if negb (String.eqb qstring "") then "?" +:+ qstring else "").

Definition get (uri : string) (opts : JsVal) : M World JsVal :=
  let req := {| method := "GET"; uri := path_of uri opts; body := JUndefined |} in
  try_catch
    (resp <- baseRequest req ;; handleResponse (of_response resp) JNull req)
    (fun ex => handleResponse (of_exn ex) JNull req).

Definition post (uri : string) (entity opts : JsVal) : M World JsVal :=
  let req := {| method := "POST"; uri := path_of uri opts; body := entity |} in
  try_catch
    (resp <- baseRequest req ;; handleResponse (of_response resp) entity req)
    (fun ex => handleResponse (of_exn ex) entity req).

Definition put (uri : string) (entity opts : JsVal) : M World JsVal :=
  let req := {| method := "PUT"; uri := path_of uri opts; body := entity |} in
  try_catch
    (resp <- baseRequest req ;; handleResponse (of_response resp) entity req)
    (fun ex => handleResponse (of_exn ex) entity req).

Definition delete (uri : string) (opts : JsVal) : M World JsVal :=
  let req := {| method := "DELETE"; uri := path_of uri opts; body := JUndefined |} in
  try_catch
    (resp <- baseRequest req ;; handleResponse (of_response resp) JNull req)
    (fun ex => handleResponse (of_exn ex) JNull req).

Definition createItem (item : JsVal) : M World JsVal := post "/items" item JUndefined.
Definition deleteItem (id : JsVal) : M World JsVal :=
  delete ("/items/" +:+ ToString id) JUndefined.
Definition getItem (id opts : JsVal) : M World JsVal :=
  get ("/items/" +:+ ToString id) opts.
Definition moveItem (id payload : JsVal) : M World JsVal :=
  post ("/items/" +:+ ToString id +:+ "/move") payload JUndefined.
Definition updateItem (id item : JsVal) : M World JsVal :=
  put ("/items/" +:+ ToString id) item JUndefined.
Definition cloneItem (id payload : JsVal) : M World JsVal :=
  post ("/items/" +:+ ToString id +:+ "/move") payload JUndefined.
Definition listItems (opts : JsVal) : M World JsVal := get "/items" opts.
Definition listRecentItems (opts : JsVal) : M World JsVal := get "/items/recent" opts.
Definition listCustomFields (opts : JsVal) : M World JsVal := get "/custom_fields" opts.
Definition getCustomField (id : JsVal) : M World JsVal :=
  get ("/custom_fields/" +:+ ToString id) JUndefined.

End WithTransport.

End Legacy.

(** ** The [Sortly] class before 1.1.5 *)

(** Same constructor, fields and [baseRequest]; [handleResponse] takes the
    response alone.  [get] hands the path string to [baseRequest], which
    makes it a GET. *)
Module LegacyFirst.

Section WithTransport.

Variable qs_stringify : JsVal -> string.
Variable http : Legacy.Req -> Legacy.Transport.

Definition handleResponse (resp : Legacy.Resp) : M Legacy.World JsVal :=
  if Legacy.sc_ge (Legacy.statusCode resp) 200 && Legacy.sc_lt (Legacy.statusCode resp) 300 then
    match Legacy.headers resp with
    | None => throw (TypeError "Cannot read property 'sortly-rate-limit-max' of undefined")
    | Some h =>
        modify (fun w =>
          {| Legacy.self :=
               {| Legacy.rate_limit := header_index h "sortly-rate-limit-max";
                  Legacy.rate_limit_remaining := header_index h "sortly-rate-limit-remaining";
                  Legacy.rate_limit_reset := header_index h "sortly-rate-limit-reset";
                  Legacy.request_id := header_index h "x-request-id" |};
             Legacy.wire := Legacy.wire w |}) ;;;
        if Legacy.sc_is (Legacy.statusCode resp) 204 then ret JUndefined (* nothing returned *)
        else ret (Legacy.resp_body resp)
    end
  else
    (* Client-side errors. *)
    match Legacy.response resp with
    | None => throw (TypeError "Cannot read property 'headers' of undefined")
    | Some r =>
        let h := im_headers r in
        modify (fun w =>
          {| Legacy.self :=
               {| Legacy.rate_limit :=
                    js_or (header_index h "sortly-rate-limit-max")
                          (Legacy.rate_limit (Legacy.self w));
                  Legacy.rate_limit_remaining :=
                    js_or (header_index h "sortly-rate-limit-remaining")
                          (Legacy.rate_limit_remaining (Legacy.self w));
                  Legacy.rate_limit_reset :=
                    js_or (header_index h "sortly-rate-limit-reset")
                          (Legacy.rate_limit_reset (Legacy.self w));
                  Legacy.request_id := header_index h "x-request-id" |};
             Legacy.wire := Legacy.wire w |}) ;;;
        if Legacy.sc_ge (Legacy.statusCode resp) 400
           && Legacy.sc_lt (Legacy.statusCode resp) 500 then
          if Legacy.sc_is (Legacy.statusCode resp) 400 then
            throw (Error ("Request Error. " +:+ ToString (Legacy.message resp)))
          else if Legacy.sc_is (Legacy.statusCode resp) 401 then
            throw (Error ("Authorization Error. " +:+ ToString (Legacy.message resp)))
          else if Legacy.sc_is (Legacy.statusCode resp) 404 then
            ret JNull (* Don't throw an error, return null. *)
          else if Legacy.sc_is (Legacy.statusCode resp) 429 then
            w <- get_state ;;
            throw (RateLimitExceeded
                     ("Sortly rate limit exceeded. Try again in "
                      +:+ ToString (Legacy.rate_limit_reset (Legacy.self w)) +:+ " seconds."))
          else
            throw (Error ("Unhandled Error (HTTP-" +:+ Legacy.sc_text (Legacy.statusCode resp)
                          +:+ "). " +:+ ToString (Legacy.message resp)))
        else if Legacy.sc_ge (Legacy.statusCode resp) 500 then
          (* response body may not be parseable. Return error with raw body. *)
          throw (Error ("Sortly Server Error (HTTP-" +:+ Legacy.sc_text (Legacy.statusCode resp)
                        +:+ "). Details: " +:+ ToString (Legacy.resp_body resp)))
        else
          (* Some other potentially valid response. Return the payload. *)
          throw (ReferenceError "responseBody is not defined")
    end.

Definition get (uri : string) (opts : JsVal) : M Legacy.World JsVal :=
  let path := Legacy.path_of qs_stringify uri opts in
  try_catch
    (resp <- Legacy.baseRequest http
               {| Legacy.method := "GET"; Legacy.uri := path; Legacy.body := JUndefined |} ;;
     handleResponse (Legacy.of_response resp))
    (fun ex => handleResponse (Legacy.of_exn ex)).

Definition post (uri : string) (entity opts : JsVal) : M Legacy.World JsVal :=
  let path := Legacy.path_of qs_stringify uri opts in
  try_catch
    (resp <- Legacy.baseRequest http
               {| Legacy.method := "POST"; Legacy.uri := path; Legacy.body := entity |} ;;
     handleResponse (Legacy.of_response resp))
    (fun ex => handleResponse (Legacy.of_exn ex)).

Definition put (uri : string) (entity opts : JsVal) : M Legacy.World JsVal :=
  let path := Legacy.path_of qs_stringify uri opts in
  try_catch
    (resp <- Legacy.baseRequest http
               {| Legacy.method := "PUT"; Legacy.uri := path; Legacy.body := entity |} ;;
     handleResponse (Legacy.of_response resp))
    (fun ex => handleResponse (Legacy.of_exn ex)).

Definition delete (uri : string) (opts : JsVal) : M Legacy.World JsVal :=
  let path := Legacy.path_of qs_stringify uri opts in
  try_catch
    (resp <- Legacy.baseRequest http
               {| Legacy.method := "DELETE"; Legacy.uri := path; Legacy.body := JUndefined |} ;;
     handleResponse (Legacy.of_response resp))
    (fun ex => handleResponse (Legacy.of_exn ex)).

Definition listCustomFields (opts : JsVal) : M Legacy.World JsVal := get "/custom_fields" opts.
Definition cloneItem (id payload : JsVal) : M Legacy.World JsVal :=
  post ("/items/" +:+ ToString id +:+ "/move") payload JUndefined.
Definition createItem (item : JsVal) : M Legacy.World JsVal := post "/items" item JUndefined.
Definition deleteItem (id : JsVal) : M Legacy.World JsVal :=
  delete ("/items/" +:+ ToString id) JUndefined.
Definition getItem (id : JsVal) : M Legacy.World JsVal :=
  get ("/items/" +:+ ToString id) JUndefined.
Definition listItems (opts : JsVal) : M Legacy.World JsVal := get "/items" opts.
Definition listRecentItems (opts : JsVal) : M Legacy.World JsVal := get "/items/recent" opts.
Definition moveItem (id payload : JsVal) : M Legacy.World JsVal :=
  post ("/items/" +:+ ToString id +:+ "/move") payload JUndefined.
Definition updateItem (id item : JsVal) : M Legacy.World JsVal :=
  put ("/items/" +:+ ToString id) item JUndefined.

End WithTransport.

End LegacyFirst.

(** * Verification *)

(** ** Notions used in the statements *)

(** The request [Connector.doFetch] (and [Connector0.doFetch]) hands to
    [fetch], read off its body. *)
Definition call_of (qs_stringify : JsVal -> string) (token method url : string)
    (query payload : JsVal) (options : option Connector.Options) : Connector.FetchCall :=
  {| Connector.fc_url := url +:+ (if truthy query then "?" +:+ qs_stringify query else "");
     Connector.fc_method := method;
     Connector.fc_headers :=
       match options with
       | Some (Connector.mkOptions (Some h) _) =>
           Object_assign (Connector.default_headers token) h
       | _ => Connector.default_headers token
       end;
     Connector.fc_body := if truthy payload then JSON_stringify payload else None |}.

(** The world once [call] has gone out. *)
Definition sent (w : Connector.World) (call : Connector.FetchCall) : Connector.World :=
  {| Connector.self := Connector.self w;
     Connector.wire := (Connector.wire w ++ [call])%list |}.

(** The world once the rate-limit headers of [r] are recorded. *)
Definition recorded (r : Connector.Response) (w : Connector.World) : Connector.World :=
  Connector.set_rate_limits
    (Headers_get (Connector.headers r) "Sortly-Rate-Limit-Max")
    (Headers_get (Connector.headers r) "Sortly-Rate-Limit-Remaining")
    (Headers_get (Connector.headers r) "Sortly-Rate-Limit-Reset") w.

Definition sent0 (w : Connector0.World) (call : Connector.FetchCall) : Connector0.World :=
  {| Connector0.self := Connector0.self w;
     Connector0.wire := (Connector0.wire w ++ [call])%list |}.

(** A network that gives the same answer to every request. *)
Definition answering (r : Connector.Response)
  : Connector.FetchCall -> Completion Connector.Response := fun _ => Return r.

Definition replying (r : IncomingMessage) : Legacy.Req -> Legacy.Transport :=
  fun _ => Legacy.Answered r.

Definition sent_req (w : Legacy.World) (req : Legacy.Req) : Legacy.World :=
  {| Legacy.self := Legacy.self w; Legacy.wire := (Legacy.wire w ++ [req])%list |}.

(** The legacy bookkeeping on a 2xx response and on any other one. *)
Definition after_success (r : IncomingMessage) (w : Legacy.World) : Legacy.World :=
  {| Legacy.self :=
       {| Legacy.rate_limit := header_index (im_headers r) "sortly-rate-limit-max";
          Legacy.rate_limit_remaining := header_index (im_headers r) "sortly-rate-limit-remaining";
          Legacy.rate_limit_reset := header_index (im_headers r) "sortly-rate-limit-reset";
          Legacy.request_id := header_index (im_headers r) "x-request-id" |};
     Legacy.wire := Legacy.wire w |}.

Definition after_failure (r : IncomingMessage) (w : Legacy.World) : Legacy.World :=
  {| Legacy.self :=
       {| Legacy.rate_limit :=
            js_or (header_index (im_headers r) "sortly-rate-limit-max")
                  (Legacy.rate_limit (Legacy.self w));
          Legacy.rate_limit_remaining :=
            js_or (header_index (im_headers r) "sortly-rate-limit-remaining")
                  (Legacy.rate_limit_remaining (Legacy.self w));
          Legacy.rate_limit_reset :=
            js_or (header_index (im_headers r) "sortly-rate-limit-reset")
                  (Legacy.rate_limit_reset (Legacy.self w));
          Legacy.request_id := header_index (im_headers r) "x-request-id" |};
     Legacy.wire := Legacy.wire w |}.

(** One round trip of the legacy class: the body shared by [get], [post],
    [put] and [delete]. *)
Definition exchange (http : Legacy.Req -> Legacy.Transport)
    (req : Legacy.Req) (reqbody : JsVal) : M Legacy.World JsVal :=
  try_catch
    (resp <- Legacy.baseRequest http req ;;
     Legacy.handleResponse (Legacy.of_response resp) reqbody req)
    (fun ex => Legacy.handleResponse (Legacy.of_exn ex) reqbody req).

(** The four HTTP verbs of the legacy class behind one signature
    ([entity] is ignored by [get] and [delete]). *)
Definition verbs (qs_stringify : JsVal -> string) (http : Legacy.Req -> Legacy.Transport)
  : list (string * (string -> JsVal -> JsVal -> M Legacy.World JsVal)) :=
  [ ("GET", fun uri _ opts => Legacy.get qs_stringify http uri opts);
    ("POST", fun uri entity opts => Legacy.post qs_stringify http uri entity opts);
    ("PUT", fun uri entity opts => Legacy.put qs_stringify http uri entity opts);
    ("DELETE", fun uri _ opts => Legacy.delete qs_stringify http uri opts) ].

(** [v] is an object that has a property named [k]. *)
Definition has_prop (v : JsVal) (k : string) : bool :=
  match v with
  | JObject props => bool_decide (is_Some (lookup_prop k props))
  | _ => false
  end.

(** The value of header [k], or [absent] when the response does not carry it. *)
Definition header_or (absent : JsVal) (h : Headers) (k : string) : JsVal :=
  match h !! k with
  | Some v => JString v
  | None => absent
  end.

(** The value of header [k] when it is there and not empty, else [prior]. *)
Definition header_else (prior : JsVal) (h : Headers) (k : string) : JsVal :=
  match h !! k with
  | Some v => if String.eqb v "" then prior else JString v
  | None => prior
  end.

(** *** Sample data *)

Definition qs_plain (query : JsVal) : string :=
  match query with
  | JObject props => join_with "&" (map (fun kv => fst kv +:+ "=" +:+ ToString (snd kv)) props)
  | _ => ""
  end.

Definition acme : Connector.SortlyConnector := Connector.constructor None "s3cr3t".
Definition idle : Connector.World := {| Connector.self := acme; Connector.wire := [] |}.

Definition acme0 : Connector0.World :=
  {| Connector0.self := {| Connector0.base_url := "https://api.sortly.co/api/v1";
                           Connector0.api_token := "s3cr3t" |};
     Connector0.wire := [] |}.

Definition fresh : Legacy.World :=
  {| Legacy.self := Legacy.constructor; Legacy.wire := [] |}.

Definition widget_item : JsVal := JObject [("name", JString "Widget")].
Definition widget_data : JsVal := JObject [("id", JNum 42); ("name", JString "Widget")].
Definition widget_envelope : JsVal := JObject [("data", widget_data)].
Definition widget_json : string :=
  "{" +:+ quoted "name" +:+ ":" +:+ quoted "Widget" +:+ "}".

Definition quota_headers : Headers :=
  {[ "sortly-rate-limit-max" := "1000";
     "sortly-rate-limit-remaining" := "0";
     "sortly-rate-limit-reset" := "37" ]}.

Definition not_found_json : Connector.Response :=
  {| Connector.status := 404; Connector.headers := quota_headers;
     Connector.json_body := Some (JObject [("message", JString "Not Found")]) |}.

Definition legacy_reply (sc : Z) (h : Headers) : IncomingMessage :=
  {| im_statusCode := sc; im_headers := h; im_body := JObject [("message", JString "n/a")] |}.

Definition ok_without_data : Connector.Response :=
  {| Connector.status := 200; Connector.headers := quota_headers;
     Connector.json_body := Some (JObject [("meta", JObject [("page", JNum 1)])]) |}.

Definition too_many : Connector.Response :=
  {| Connector.status := 429; Connector.headers := quota_headers;
     Connector.json_body := Some (JObject [("message", JString "Too Many Requests")]) |}.

Definition unauthorized_json : Connector.Response :=
  {| Connector.status := 401; Connector.headers := quota_headers;
     Connector.json_body := Some (JObject [("error", JString "bad token")]) |}.

Definition multiple_choices : Connector.Response :=
  {| Connector.status := 300; Connector.headers := ∅;
     Connector.json_body := Some (JObject [("choices", JArray [])]) |}.

Definition early_hints : Connector.Response :=
  {| Connector.status := 103; Connector.headers := ∅;
     Connector.json_body := Some (JObject []) |}.

Definition no_content : Connector.Response :=
  {| Connector.status := 204; Connector.headers := quota_headers; Connector.json_body := None |}.

Definition bare_ok : Connector.Response :=
  {| Connector.status := 200; Connector.headers := ∅;
     Connector.json_body := Some (JObject [("data", JArray [])]) |}.

(** A connector that has already seen a quota. *)
Definition busy : Connector.World :=
  {| Connector.self :=
       {| Connector.base_url := "https://api.sortly.co/api/v1";
          Connector.api_token := "s3cr3t";
          Connector.rate_limit_max := JString "1000";
          Connector.rate_limit_remaining := JString "999";
          Connector.rate_limit_reset := JString "60" |};
     Connector.wire := [] |}.

Definition trace_only : Connector.Options :=
  {| Connector.opt_headers := Some {[ "X-Trace" := "abc" ]};
     Connector.opt_retries := JUndefined |}.

(** *** Notions for the further properties *)

(** The endpoint operations of [SortlyConnector] as one type, so that a
    statement can range over all of them and over sequences of them. *)
Inductive Operation : Type :=
  | CreateItem (item : JsVal)
  | DeleteItem (id : JsVal)
  | FetchItem (id include : JsVal)
  | MoveItem (item_id quantity folder_id leave_zero_quantity : JsVal)
  | SearchItems (search : JsVal)
  | UpdateItem (item : JsVal)
  | ListCustomAttributes (per_page page : JsVal).

Definition perform (qs_stringify : JsVal -> string)
    (fetch : Connector.FetchCall -> Completion Connector.Response)
    (op : Operation) : M Connector.World JsVal :=
  match op with
  | CreateItem item => Connector.createItem qs_stringify fetch item
  | DeleteItem id => Connector.deleteItem qs_stringify fetch id
  | FetchItem id include => Connector.fetchItem qs_stringify fetch id include
  | MoveItem item_id quantity folder_id leave_zero_quantity =>
      Connector.moveItem qs_stringify fetch item_id quantity folder_id leave_zero_quantity
  | SearchItems search => Connector.searchItems qs_stringify fetch search
  | UpdateItem item => Connector.updateItem qs_stringify fetch item
  | ListCustomAttributes per_page page =>
      Connector.listCustomAttributes qs_stringify fetch per_page page
  end.

(** The world after a program has made the calls [ops] one after the other,
    whatever each of them returned or threw. *)
Definition session (qs_stringify : JsVal -> string)
    (fetch : Connector.FetchCall -> Completion Connector.Response)
    (ops : list Operation) (w : Connector.World) : Connector.World :=
  fold_left (fun w op => snd (perform qs_stringify fetch op w)) ops w.

(** One round trip of the first [Sortly] revision. *)
Definition exchange_first (http : Legacy.Req -> Legacy.Transport) (req : Legacy.Req)
  : M Legacy.World JsVal :=
  try_catch
    (resp <- Legacy.baseRequest http req ;;
     LegacyFirst.handleResponse (Legacy.of_response resp))
    (fun ex => LegacyFirst.handleResponse (Legacy.of_exn ex)).

Definition verbs_first (qs_stringify : JsVal -> string) (http : Legacy.Req -> Legacy.Transport)
  : list (string * (string -> JsVal -> JsVal -> M Legacy.World JsVal)) :=
  [ ("GET", fun uri _ opts => LegacyFirst.get qs_stringify http uri opts);
    ("POST", fun uri entity opts => LegacyFirst.post qs_stringify http uri entity opts);
    ("PUT", fun uri entity opts => LegacyFirst.put qs_stringify http uri entity opts);
    ("DELETE", fun uri _ opts => LegacyFirst.delete qs_stringify http uri opts) ].

(** [t] ends with [s]. *)
Definition ends_with (t s : string) : Prop :=
  exists pre, t = pre +:+ s.

(** A network that is down. *)
Definition refusing : Connector.FetchCall -> Completion Connector.Response :=
  fun _ => Throw (FetchError "connect ECONNREFUSED").

Definition unreachable : Legacy.Req -> Legacy.Transport :=
  fun _ => Legacy.Failed "Error: connect ECONNREFUSED".

Definition server_error : Connector.Response :=
  {| Connector.status := 500; Connector.headers := quota_headers;
     Connector.json_body := Some (JObject [("message", JString "boom")]) |}.

Definition unprocessable : Connector.Response :=
  {| Connector.status := 422; Connector.headers := quota_headers;
     Connector.json_body := Some (JObject [("errors", JArray [JString "name taken"])]) |}.

Definition page_of_items : Connector.Response :=
  {| Connector.status := 200; Connector.headers := quota_headers;
     Connector.json_body :=
       Some (JObject [("meta", JObject [("page", JNum 1)]); ("data", JArray [widget_data])]) |}.

Definition zero_data : Connector.Response :=
  {| Connector.status := 200; Connector.headers := quota_headers;
     Connector.json_body := Some (JObject [("data", JNum 0)]) |}.

Definition created : Connector.Response :=
  {| Connector.status := 201; Connector.headers := quota_headers;
     Connector.json_body := Some widget_envelope |}.

Definition cache_control : Connector.Options :=
  {| Connector.opt_headers := Some {[ "Authorization" := "Basic abc"; "X-Trace" := "1" ]};
     Connector.opt_retries := JNum 3 |}.

(** ** Execution lemmas *)

Lemma append_empty_r (s : string) : s +:+ "" = s.
Proof. induction s as [|c s IH]; [reflexivity | exact (f_equal (String c) IH)]. Qed.

Lemma append_assoc_r (a b c : string) : (a +:+ b) +:+ c = a +:+ b +:+ c.
Proof. induction a as [|x a IH]; [reflexivity | exact (f_equal (String x) IH)]. Qed.

Lemma bit_and_andb a b : negb (Connector.bit_and a b =? 0) = a && b.
Proof. destruct a, b; reflexivity. Qed.

Section ConnectorRuns.

Variable qs_stringify : JsVal -> string.
Variable fetch : Connector.FetchCall -> Completion Connector.Response.

Lemma doFetch_run method url query payload options w :
  Connector.doFetch qs_stringify fetch method url query payload options w =
    let call := call_of qs_stringify (Connector.api_token (Connector.self w))
                        method url query payload options in
    match fetch call with
    | Throw e => (Throw e, sent w call)
    | Return r =>
        let w' := recorded r (sent w call) in
        if Connector.ok r then
          if Connector.status r =? 204 then (Return (JObject []), w')
          else Connector.json r w'
        else Connector.handleNotOk r w'
    end.
Proof.
  unfold Connector.doFetch, call_of, try_catch, bind, get_state,
    Connector.await_fetch, modify, sent, recorded.
  replace (match Connector.opt_headers _ with
           | Some h => Object_assign _ h
           | None => _
           end)
    with (match options with
          | Some {| Connector.opt_headers := Some h |} =>
              Object_assign (Connector.default_headers (Connector.api_token (Connector.self w))) h
          | _ => Connector.default_headers (Connector.api_token (Connector.self w))
          end).
  2:{ destruct options as [[[h|] r]|]; cbn [Connector.opt_headers Connector.opt_retries];
      destruct (negb _); reflexivity. }
  destruct (fetch _) as [r|e]; cbn zeta.
  - destruct (Connector.ok r).
    + destruct (Connector.status r =? 204); [reflexivity|].
      destruct (Connector.json r _) as [[v|e] w']; [reflexivity|].
      destruct (instanceof_ApiError e); reflexivity.
    + destruct (Connector.handleNotOk r _) as [[v|e] w']; [reflexivity|].
      destruct (instanceof_ApiError e); reflexivity.
  - destruct (instanceof_ApiError e); reflexivity.
Qed.

Lemma handleNotOk_run r w :
  Connector.handleNotOk r w =
    match Connector.json_body r with
    | None => (Throw (FetchError "invalid json response body"), w)
    | Some result =>
        let s := Connector.status r in
        if (300 <=? s) && (s <? 400) then (Return result, w)
        else if (400 <=? s) && (s <? 500) then
          if (s =? 401) || (s =? 403) then
            (Throw (ApiAuthError (error_message (stringify_val result)) (JNum s)), w)
          else if is_nullish result then
            (Throw (TypeError ("Cannot read property 'message' of " +:+ ToString result)), w)
          else (Throw (ApiError (error_message (own_prop result "message")) (JNum s)), w)
        else if 500 <=? s then
          if is_nullish result then
            (Throw (TypeError ("Cannot read property 'message' of " +:+ ToString result)), w)
          else (Throw (ApiError (error_message (own_prop result "message")) (JNum s)), w)
        else (Throw (ReferenceError "err is not defined"), w)
    end.
Proof.
  unfold Connector.handleNotOk, Connector.json, bind.
  destruct (Connector.json_body r) as [result|]; [|reflexivity].
  unfold ret at 1. cbn zeta. rewrite !bit_and_andb.
  destruct ((300 <=? _) && (_ <? 400)); [reflexivity|].
  destruct ((400 <=? _) && (_ <? 500)).
  - destruct ((_ =? 401) || (_ =? 403)); [reflexivity|].
    unfold get_prop. destruct (is_nullish result); reflexivity.
  - destruct (500 <=? _); [|reflexivity].
    unfold get_prop. destruct (is_nullish result); reflexivity.
Qed.

End ConnectorRuns.

Lemma own_prop_lacking v k : has_prop v k = false -> own_prop v k = JUndefined.
Proof.
  destruct v; try reflexivity. cbn. intros H.
  destruct (lookup_prop k props) eqn:E; [|reflexivity].
  apply bool_decide_eq_false in H. exfalso. apply H. eauto.
Qed.

Lemma truthy_prop_object v k : truthy (own_prop v k) = true -> truthy v = true.
Proof. destruct v; cbn; try discriminate; reflexivity. Qed.

Section ConnectorOps.

Variable qs_stringify : JsVal -> string.
Variable fetch : Connector.FetchCall -> Completion Connector.Response.

Lemma json_world r w : snd (Connector.json r w) = w.
Proof. unfold Connector.json. destruct (Connector.json_body r); reflexivity. Qed.

Lemma handleNotOk_world r w : snd (Connector.handleNotOk r w) = w.
Proof.
  rewrite handleNotOk_run. destruct (Connector.json_body r); [|reflexivity]. cbn zeta.
  repeat match goal with |- context [if ?b then _ else _] => destruct b end; reflexivity.
Qed.

Lemma doFetch_wire method url query payload options w :
  Connector.wire (snd (Connector.doFetch qs_stringify fetch method url query payload options w)) =
    (Connector.wire w ++
       [call_of qs_stringify (Connector.api_token (Connector.self w))
                method url query payload options])%list.
Proof.
  rewrite doFetch_run. cbn zeta. destruct (fetch _) as [r|e]; [|reflexivity].
  destruct (Connector.ok r).
  - destruct (Connector.status r =? 204); [reflexivity|]. rewrite json_world. reflexivity.
  - rewrite handleNotOk_world. reflexivity.
Qed.

Lemma createItem_unnamed item w :
  truthy (own_prop item "name") = false ->
  exists msg, Connector.createItem qs_stringify fetch item w = (Throw (ApiError msg JUndefined), w).
Proof.
  intros H. unfold Connector.createItem. destruct (truthy item); cbn [negb].
  - rewrite H. cbn [negb]. eexists. reflexivity.
  - eexists. reflexivity.
Qed.

Lemma moveItem_incomplete item_id quantity folder_id leave_zero_quantity w :
  truthy item_id = false \/ is_nullish quantity = true ->
  exists msg,
    Connector.moveItem qs_stringify fetch item_id quantity folder_id leave_zero_quantity w =
      (Throw (ApiError msg JUndefined), w).
Proof.
  intros H. unfold Connector.moveItem. destruct (truthy item_id); cbn [negb].
  - destruct H as [H|H]; [discriminate|]. rewrite H. eexists. reflexivity.
  - eexists. reflexivity.
Qed.

Lemma updateItem_without_id item w :
  truthy (own_prop item "id") = false ->
  exists msg, Connector.updateItem qs_stringify fetch item w = (Throw (ApiError msg JUndefined), w).
Proof.
  intros H. unfold Connector.updateItem. destruct (truthy item); cbn [negb].
  - rewrite H. cbn [negb]. eexists. reflexivity.
  - eexists. reflexivity.
Qed.

Lemma moveItem_zero_goes_out item_id folder_id leave_zero_quantity w :
  truthy item_id = true ->
  exists call,
    Connector.wire (snd (Connector.moveItem qs_stringify fetch item_id (JNum 0)
                           folder_id leave_zero_quantity w)) =
      (Connector.wire w ++ [call])%list
    /\ Connector.fc_method call = "POST"
    /\ Connector.fc_url call =
         Connector.base_url (Connector.self w) +:+ "/items/" +:+ ToString item_id +:+ "/move".
Proof.
  intros Hid. unfold Connector.moveItem. rewrite Hid. cbn [negb is_nullish].
  unfold bind at 1. unfold get_state at 1. unfold bind.
  match goal with |- context [Connector.doFetch ?q ?f ?m ?u ?qy ?p ?o w] =>
    pose proof (doFetch_wire m u qy p o w) as Hw;
    destruct (Connector.doFetch q f m u qy p o w) as [[v|e] w'] end;
  cbn [snd] in *; eexists; (split; [exact Hw|]); (split; [reflexivity|]);
  cbn [call_of Connector.fc_url truthy]; apply append_empty_r.
Qed.

End ConnectorOps.

Lemma unwrap_data_null v :
  truthy v = false \/ has_prop v "data" = false -> Connector.unwrap_data v = JNull.
Proof.
  unfold Connector.unwrap_data. intros [H|H].
  - rewrite H. reflexivity.
  - rewrite (own_prop_lacking _ _ H). cbn. rewrite orb_true_r. reflexivity.
Qed.

Section ConnectorWorld.

Variable qs_stringify : JsVal -> string.
Variable fetch : Connector.FetchCall -> Completion Connector.Response.

Lemma doFetch_world method url query payload options w :
  snd (Connector.doFetch qs_stringify fetch method url query payload options w) =
    let call := call_of qs_stringify (Connector.api_token (Connector.self w))
                        method url query payload options in
    match fetch call with
    | Throw _ => sent w call
    | Return r => recorded r (sent w call)
    end.
Proof.
  rewrite doFetch_run. cbn zeta. destruct (fetch _) as [r|e]; [|reflexivity].
  destruct (Connector.ok r).
  - destruct (Connector.status r =? 204); [reflexivity|]. apply json_world.
  - apply handleNotOk_world.
Qed.

End ConnectorWorld.

Section Connector0Runs.

Variable qs_stringify : JsVal -> string.
Variable fetch : Connector.FetchCall -> Completion Connector.Response.

Lemma doFetch0_run method url query payload options w :
  Connector0.doFetch qs_stringify fetch method url query payload options w =
    let call := call_of qs_stringify (Connector0.api_token (Connector0.self w))
                        method url query payload options in
    match fetch call with
    | Throw e => (Throw e, sent0 w call)
    | Return r =>
        if Connector.ok r then Connector0.json r (sent0 w call)
        else Connector0.handleNotOk r (sent0 w call)
    end.
Proof.
  unfold Connector0.doFetch, call_of, try_catch, bind, get_state,
    Connector0.await_fetch, sent0.
  replace (match Connector.opt_headers _ with
           | Some h => Object_assign _ h
           | None => _
           end)
    with (match options with
          | Some {| Connector.opt_headers := Some h |} =>
              Object_assign
                (Connector.default_headers (Connector0.api_token (Connector0.self w))) h
          | _ => Connector.default_headers (Connector0.api_token (Connector0.self w))
          end).
  2:{ destruct options as [[[h|] r]|]; cbn [Connector.opt_headers Connector.opt_retries];
      destruct (negb _); reflexivity. }
  destruct (fetch _) as [r|e]; cbn zeta; [|reflexivity].
  destruct (Connector.ok r).
  - destruct (Connector0.json r _) as [[v|e] w']; reflexivity.
  - destruct (Connector0.handleNotOk r _) as [[v|e] w']; reflexivity.
Qed.

Lemma handleNotOk0_run r w :
  Connector0.handleNotOk r w =
    match Connector.json_body r with
    | None => (Throw (FetchError "invalid json response body"), w)
    | Some result =>
        let s := Connector.status r in
        if (300 <=? s) && (s <? 400) then (Return result, w)
        else if (400 <=? s) && (s <? 500) then
          if (s =? 401) || (s =? 403) then
            (Throw (ApiAuthError (error_message (stringify_val result)) JUndefined), w)
          else (Return result, w)
        else if 500 <=? s then (Return result, w)
        else (Throw (ReferenceError "err is not defined"), w)
    end.
Proof.
  unfold Connector0.handleNotOk, Connector0.json, bind.
  destruct (Connector.json_body r) as [result|]; [|reflexivity].
  unfold ret at 1. cbn zeta. rewrite !bit_and_andb.
  destruct ((300 <=? _) && (_ <? 400)); [reflexivity|].
  destruct ((400 <=? _) && (_ <? 500)).
  - destruct ((_ =? 401) || (_ =? 403)); reflexivity.
  - destruct (500 <=? _); reflexivity.
Qed.

End Connector0Runs.

(** *** The legacy class *)

(** Runs [handleResponse] on a rejection whose status is the literal in [Hsc]. *)
Ltac legacy_status Hsc :=
  unfold Legacy.handleResponse, Legacy.of_exn;
  cbn [Legacy.statusCode Legacy.response Legacy.message];
  rewrite Hsc;
  cbn [Legacy.sc_ge Legacy.sc_lt Legacy.sc_is Legacy.sc_text
       Z.leb Z.ltb Z.eqb Z.compare Pos.compare Pos.compare_cont Pos.eqb andb];
  unfold bind, modify, get_state, throw, ret, after_failure, sent_req;
  cbn [Legacy.self Legacy.wire Legacy.rate_limit_reset ToString].

Section LegacyRuns.

Variable qs_stringify : JsVal -> string.
Variable http : Legacy.Req -> Legacy.Transport.

Lemma get_exchange uri opts :
  Legacy.get qs_stringify http uri opts =
    exchange http {| Legacy.method := "GET"; Legacy.uri := Legacy.path_of qs_stringify uri opts;
                     Legacy.body := JUndefined |} JNull.
Proof. reflexivity. Qed.

Lemma post_exchange uri entity opts :
  Legacy.post qs_stringify http uri entity opts =
    exchange http {| Legacy.method := "POST"; Legacy.uri := Legacy.path_of qs_stringify uri opts;
                     Legacy.body := entity |} entity.
Proof. reflexivity. Qed.

Lemma put_exchange uri entity opts :
  Legacy.put qs_stringify http uri entity opts =
    exchange http {| Legacy.method := "PUT"; Legacy.uri := Legacy.path_of qs_stringify uri opts;
                     Legacy.body := entity |} entity.
Proof. reflexivity. Qed.

Lemma delete_exchange uri opts :
  Legacy.delete qs_stringify http uri opts =
    exchange http {| Legacy.method := "DELETE"; Legacy.uri := Legacy.path_of qs_stringify uri opts;
                     Legacy.body := JUndefined |} JNull.
Proof. reflexivity. Qed.

Lemma exchange_2xx req reqbody w r :
  http req = Legacy.Answered r ->
  (200 <=? im_statusCode r) && (im_statusCode r <? 300) = true ->
  exchange http req reqbody w =
    (Return (if im_statusCode r =? 204 then JUndefined else im_body r),
     after_success r (sent_req w req)).
Proof.
  intros Hnet H2. unfold exchange, try_catch, bind, Legacy.baseRequest.
  rewrite Hnet, H2. unfold Legacy.handleResponse, Legacy.of_response.
  cbn [Legacy.statusCode Legacy.headers Legacy.resp_body Legacy.sc_ge Legacy.sc_lt Legacy.sc_is].
  rewrite H2. unfold bind, modify.
  destruct (im_statusCode r =? 204); reflexivity.
Qed.

(** A response outside 2xx reaches [handleResponse] through the [catch]. *)
Lemma exchange_rejected req reqbody w r :
  http req = Legacy.Answered r ->
  (200 <=? im_statusCode r) && (im_statusCode r <? 300) = false ->
  exchange http req reqbody w =
    Legacy.handleResponse
      (Legacy.of_exn (StatusCodeError
                        (pretty (im_statusCode r) +:+ " - " +:+ stringified (im_body r)) r))
      reqbody req (sent_req w req).
Proof.
  intros Hnet H2. unfold exchange, try_catch, bind, Legacy.baseRequest.
  rewrite Hnet, H2. reflexivity.
Qed.

Lemma exchange_404 req reqbody w r :
  http req = Legacy.Answered r -> im_statusCode r = 404 ->
  exchange http req reqbody w =
    (if String.eqb (Legacy.method req) "GET" then Return JNull
     else Throw (Error ("Invalid URI on " +:+ Legacy.method req +:+ " " +:+ Legacy.uri req
                        +:+ " (HTTP-404).")),
     after_failure r (sent_req w req)).
Proof.
  intros Hnet Hsc. rewrite (exchange_rejected _ _ _ r Hnet) by (rewrite Hsc; reflexivity).
  legacy_status Hsc. destruct (String.eqb _ "GET"); reflexivity.
Qed.

Lemma exchange_429 req reqbody w r :
  http req = Legacy.Answered r -> im_statusCode r = 429 ->
  exchange http req reqbody w =
    (Throw (RateLimitExceeded
              ("Sortly rate limit exceeded on " +:+ Legacy.method req +:+ " " +:+ Legacy.uri req
               +:+ ". Try again in "
               +:+ ToString (js_or (header_index (im_headers r) "sortly-rate-limit-reset")
                                   (Legacy.rate_limit_reset (Legacy.self w)))
               +:+ " seconds.")),
     after_failure r (sent_req w req)).
Proof.
  intros Hnet Hsc. rewrite (exchange_rejected _ _ _ r Hnet) by (rewrite Hsc; reflexivity).
  legacy_status Hsc. reflexivity.
Qed.

Lemma exchange_401 req reqbody w r :
  http req = Legacy.Answered r -> im_statusCode r = 401 ->
  exchange http req reqbody w =
    (Throw (Error ("Authorization Error on " +:+ Legacy.method req +:+ " " +:+ Legacy.uri req
                   +:+ " (HTTP-401). 401 - " +:+ stringified (im_body r))),
     after_failure r (sent_req w req)).
Proof.
  intros Hnet Hsc. rewrite (exchange_rejected _ _ _ r Hnet) by (rewrite Hsc; reflexivity).
  legacy_status Hsc. reflexivity.
Qed.

Lemma exchange_403 req reqbody w r :
  http req = Legacy.Answered r -> im_statusCode r = 403 ->
  exchange http req reqbody w =
    (Throw (Error ("Unhandled Error on " +:+ Legacy.method req +:+ " " +:+ Legacy.uri req
                   +:+ " (HTTP-403). 403 - " +:+ stringified (im_body r))),
     after_failure r (sent_req w req)).
Proof.
  intros Hnet Hsc. rewrite (exchange_rejected _ _ _ r Hnet) by (rewrite Hsc; reflexivity).
  legacy_status Hsc. reflexivity.
Qed.

(** Below 200 and in 3xx the last branch reads an identifier that is not
    declared anywhere. *)
Lemma exchange_unclassified req reqbody w r :
  http req = Legacy.Answered r ->
  im_statusCode r < 200 \/ 300 <= im_statusCode r < 400 ->
  exchange http req reqbody w =
    (Throw (ReferenceError "responseBody is not defined"),
     after_failure r (sent_req w req)).
Proof.
  intros Hnet Hsc.
  assert (H2 : (200 <=? im_statusCode r) && (im_statusCode r <? 300) = false) by lia.
  assert (H4 : (400 <=? im_statusCode r) && (im_statusCode r <? 500) = false) by lia.
  assert (H5 : (500 <=? im_statusCode r) = false) by lia.
  rewrite (exchange_rejected _ _ _ r Hnet H2).
  unfold Legacy.handleResponse, Legacy.of_exn.
  cbn [Legacy.statusCode Legacy.response Legacy.sc_ge Legacy.sc_lt].
  rewrite H2, H4, H5. reflexivity.
Qed.

End LegacyRuns.

Lemma handleResponse_rejected_world m r reqbody req w :
  (200 <=? im_statusCode r) && (im_statusCode r <? 300) = false ->
  snd (Legacy.handleResponse (Legacy.of_exn (StatusCodeError m r)) reqbody req w) =
    after_failure r w.
Proof.
  unfold Legacy.handleResponse, Legacy.of_exn.
  intros H2. cbn [Legacy.statusCode Legacy.response Legacy.headers Legacy.sc_ge Legacy.sc_lt].
  rewrite H2. unfold bind, modify. cbn zeta.
  repeat match goal with |- context [if ?b then _ else _] => destruct b end; reflexivity.
Qed.

Lemma exchange_world http req reqbody w r :
  http req = Legacy.Answered r ->
  snd (exchange http req reqbody w) =
    if (200 <=? im_statusCode r) && (im_statusCode r <? 300)
    then after_success r (sent_req w req)
    else after_failure r (sent_req w req).
Proof.
  intros Hnet. destruct ((200 <=? im_statusCode r) && (im_statusCode r <? 300)) eqn:H2.
  - rewrite (exchange_2xx http _ _ _ r Hnet H2). reflexivity.
  - rewrite (exchange_rejected http _ _ _ r Hnet H2). now apply handleResponse_rejected_world.
Qed.

Lemma verbs_exchange qs_stringify http verb run :
  In (verb, run) (verbs qs_stringify http) ->
  forall uri entity opts, exists b reqbody,
    run uri entity opts =
      exchange http {| Legacy.method := verb;
                       Legacy.uri := Legacy.path_of qs_stringify uri opts;
                       Legacy.body := b |} reqbody.
Proof.
  intros Hin uri entity opts. unfold verbs in Hin. cbn [In] in Hin.
  destruct Hin as [H|[H|[H|[H|[]]]]]; inversion H; subst; eexists; eexists; reflexivity.
Qed.

Lemma js_or_header_else h k prior :
  js_or (header_index h k) prior = header_else prior h k.
Proof.
  unfold js_or, header_index, header_else. destruct (h !! k) as [v|]; [|reflexivity].
  cbn [truthy]. destruct (String.eqb v ""); reflexivity.
Qed.

(** ** C1: a 404 answer *)

Section ConnectorNotFound.

Variable qs_stringify : JsVal -> string.
Variable fetch : Connector.FetchCall -> Completion Connector.Response.
Variable r : Connector.Response.
Hypothesis Hnet : forall call, fetch call = Return r.
Hypothesis H404 : Connector.status r = 404.

Lemma doFetch_404 method url query payload options w :
  fst (Connector.doFetch qs_stringify fetch method url query payload options w) =
    match Connector.json_body r with
    | Some v =>
        if is_nullish v
        then Throw (TypeError ("Cannot read property 'message' of " +:+ ToString v))
        else Throw (ApiError (error_message (own_prop v "message")) (JNum 404))
    | None => Throw (FetchError "invalid json response body")
    end.
Proof.
  rewrite doFetch_run. cbn zeta. rewrite Hnet. unfold Connector.ok. rewrite H404.
  cbn [Z.leb Z.ltb Z.compare Pos.compare Pos.compare_cont andb].
  rewrite handleNotOk_run. rewrite H404.
  destruct (Connector.json_body r) as [v|]; [|reflexivity].
  cbn. destruct (is_nullish v); reflexivity.
Qed.

Lemma fetchItem_404 id include w v :
  Connector.json_body r = Some v -> is_nullish v = false -> truthy id = true ->
  fst (Connector.fetchItem qs_stringify fetch id include w) = Return JNull.
Proof.
  intros Hv Hnn Hid. unfold Connector.fetchItem. rewrite Hid. cbn [negb].
  unfold try_catch. unfold bind at 1. unfold get_state at 1. unfold bind.
  match goal with |- context [Connector.doFetch ?q ?f ?m ?u ?qy ?p ?o w] =>
    pose proof (doFetch_404 m u qy p o w) as Hrun;
    destruct (Connector.doFetch q f m u qy p o w) as [c w'] end.
  cbn [fst] in Hrun. rewrite Hv, Hnn in Hrun. subst c. reflexivity.
Qed.

Lemma fetchItem_404_undecodable id include w :
  Connector.json_body r = None -> truthy id = true ->
  fst (Connector.fetchItem qs_stringify fetch id include w) =
    Throw (FetchError "invalid json response body").
Proof.
  intros Hv Hid. unfold Connector.fetchItem. rewrite Hid. cbn [negb].
  unfold try_catch. unfold bind at 1. unfold get_state at 1. unfold bind.
  match goal with |- context [Connector.doFetch ?q ?f ?m ?u ?qy ?p ?o w] =>
    pose proof (doFetch_404 m u qy p o w) as Hrun;
    destruct (Connector.doFetch q f m u qy p o w) as [c w'] end.
  cbn [fst] in Hrun. rewrite Hv in Hrun. subst c. reflexivity.
Qed.

Lemma deleteItem_404 id w v :
  Connector.json_body r = Some v -> is_nullish v = false -> truthy id = true ->
  fst (Connector.deleteItem qs_stringify fetch id w) =
    Throw (ApiError (error_message (own_prop v "message")) (JNum 404)).
Proof.
  intros Hv Hnn Hid. unfold Connector.deleteItem. rewrite Hid. cbn [negb].
  unfold bind at 1. unfold get_state at 1. unfold bind.
  match goal with |- context [Connector.doFetch ?q ?f ?m ?u ?qy ?p ?o w] =>
    pose proof (doFetch_404 m u qy p o w) as Hrun;
    destruct (Connector.doFetch q f m u qy p o w) as [c w'] end.
  cbn [fst] in Hrun. rewrite Hv, Hnn in Hrun. subst c. reflexivity.
Qed.

Lemma updateItem_404 item w v :
  Connector.json_body r = Some v -> is_nullish v = false ->
  truthy (own_prop item "id") = true ->
  fst (Connector.updateItem qs_stringify fetch item w) =
    Throw (ApiError (error_message (own_prop v "message")) (JNum 404)).
Proof.
  intros Hv Hnn Hid. unfold Connector.updateItem.
  rewrite (truthy_prop_object _ _ Hid), Hid. cbn [negb].
  unfold bind at 1. unfold get_state at 1. unfold bind.
  match goal with |- context [Connector.doFetch ?q ?f ?m ?u ?qy ?p ?o w] =>
    pose proof (doFetch_404 m u qy p o w) as Hrun;
    destruct (Connector.doFetch q f m u qy p o w) as [c w'] end.
  cbn [fst] in Hrun. rewrite Hv, Hnn in Hrun. subst c. reflexivity.
Qed.

Lemma listCustomAttributes_404 per_page page w v :
  Connector.json_body r = Some v -> is_nullish v = false ->
  fst (Connector.listCustomAttributes qs_stringify fetch per_page page w) =
    Throw (ApiError (error_message (own_prop v "message")) (JNum 404)).
Proof.
  intros Hv Hnn. unfold Connector.listCustomAttributes.
  unfold bind at 1. unfold get_state at 1. cbn zeta.
  rewrite doFetch_404, Hv, Hnn. reflexivity.
Qed.

Lemma createItem_404 item w v :
  Connector.json_body r = Some v -> is_nullish v = false ->
  truthy (own_prop item "name") = true ->
  fst (Connector.createItem qs_stringify fetch item w) =
    Throw (ApiError (error_message (own_prop v "message")) (JNum 404)).
Proof.
  intros Hv Hnn Hname. unfold Connector.createItem.
  rewrite (truthy_prop_object _ _ Hname), Hname. cbn [negb].
  unfold bind at 1. unfold get_state at 1. unfold bind.
  match goal with |- context [Connector.doFetch ?q ?f ?m ?u ?qy ?p ?o w] =>
    pose proof (doFetch_404 m u qy p o w) as Hrun;
    destruct (Connector.doFetch q f m u qy p o w) as [c w'] end.
  cbn [fst] in Hrun. rewrite Hv, Hnn in Hrun. subst c. reflexivity.
Qed.

Lemma moveItem_404 item_id quantity folder_id leave_zero_quantity w v :
  Connector.json_body r = Some v -> is_nullish v = false ->
  truthy item_id = true -> is_nullish quantity = false ->
  fst (Connector.moveItem qs_stringify fetch item_id quantity folder_id
         leave_zero_quantity w) =
    Throw (ApiError (error_message (own_prop v "message")) (JNum 404)).
Proof.
  intros Hv Hnn Hid Hq. unfold Connector.moveItem. rewrite Hid, Hq. cbn [negb].
  unfold bind at 1. unfold get_state at 1. unfold bind.
  match goal with |- context [Connector.doFetch ?q ?f ?m ?u ?qy ?p ?o w] =>
    pose proof (doFetch_404 m u qy p o w) as Hrun;
    destruct (Connector.doFetch q f m u qy p o w) as [c w'] end.
  cbn [fst] in Hrun. rewrite Hv, Hnn in Hrun. subst c. reflexivity.
Qed.

Lemma searchItems_404 search w v :
  Connector.json_body r = Some v -> is_nullish v = false ->
  fst (Connector.searchItems qs_stringify fetch search w) =
    Throw (ApiError (error_message (own_prop v "message")) (JNum 404)).
Proof.
  intros Hv Hnn. unfold Connector.searchItems.
  unfold bind at 1. unfold get_state at 1.
  rewrite doFetch_404, Hv, Hnn. reflexivity.
Qed.

End ConnectorNotFound.

(** C1, as the code has it.  In the 1.1.5 [Sortly] class a 404 answer makes
    [get] return [null] and makes [post], [put] and [delete] throw the
    [Error] "Invalid URI on <verb> <uri> (HTTP-404).".  In [SortlyConnector]
    the method plays no part: a 404 whose body decodes to a JSON value other
    than [null] makes [doFetch] throw an [ApiError] with status 404 for
    every method; [fetchItem] alone catches it and returns [null], and every
    other operation lets it reach the caller, the GET of
    [listCustomAttributes] as much as the DELETE of [deleteItem], the PUT of
    [updateItem] and the POST of [createItem], [moveItem] and
    [searchItems]. *)
Theorem C1_not_found_null_on_read_error_otherwise :
  (forall qs_stringify http r verb run uri entity opts w,
      (forall req, http req = Legacy.Answered r) ->
      im_statusCode r = 404 ->
      In (verb, run) (verbs qs_stringify http) ->
      fst (run uri entity opts w) =
        if String.eqb verb "GET" then Return JNull
        else Throw (Error ("Invalid URI on " +:+ verb +:+ " "
                           +:+ Legacy.path_of qs_stringify uri opts +:+ " (HTTP-404).")))
  /\ (forall qs_stringify fetch r v w,
        (forall call, fetch call = Return r) ->
        Connector.status r = 404 ->
        Connector.json_body r = Some v -> is_nullish v = false ->
        let not_found := ApiError (error_message (own_prop v "message")) (JNum 404) in
        (forall method url query payload options,
            fst (Connector.doFetch qs_stringify fetch method url query payload options w) =
              Throw not_found)
        /\ (forall id include, truthy id = true ->
              fst (Connector.fetchItem qs_stringify fetch id include w) = Return JNull)
        /\ (forall per_page page,
              fst (Connector.listCustomAttributes qs_stringify fetch per_page page w) =
                Throw not_found)
        /\ (forall id, truthy id = true ->
              fst (Connector.deleteItem qs_stringify fetch id w) = Throw not_found)
        /\ (forall item, truthy (own_prop item "id") = true ->
              fst (Connector.updateItem qs_stringify fetch item w) = Throw not_found)
        /\ (forall item, truthy (own_prop item "name") = true ->
              fst (Connector.createItem qs_stringify fetch item w) = Throw not_found)
        /\ (forall item_id quantity folder_id leave_zero_quantity,
              truthy item_id = true -> is_nullish quantity = false ->
              fst (Connector.moveItem qs_stringify fetch item_id quantity folder_id
                     leave_zero_quantity w) = Throw not_found)
        /\ (forall search,
              fst (Connector.searchItems qs_stringify fetch search w) = Throw not_found)).
Proof.
  split.
  - intros qs http r verb run uri entity opts w Hnet Hsc Hin.
    destruct (verbs_exchange _ _ _ _ Hin uri entity opts) as (b & reqbody & ->).
    rewrite (exchange_404 http _ _ _ r (Hnet _) Hsc). reflexivity.
  - intros qs fetch r v w Hnet Hsc Hv Hnn. cbn zeta. repeat apply conj.
    + intros method url query payload options.
      rewrite (doFetch_404 qs fetch r Hnet Hsc), Hv, Hnn. reflexivity.
    + intros id include. now apply fetchItem_404 with (r := r) (v := v).
    + intros per_page page. now apply listCustomAttributes_404 with (r := r).
    + intros id. now apply deleteItem_404 with (r := r).
    + intros item. now apply updateItem_404 with (r := r).
    + intros item. now apply createItem_404 with (r := r).
    + intros item_id quantity folder_id lzq. now apply moveItem_404 with (r := r).
    + intros search. now apply searchItems_404 with (r := r).
Qed.

Lemma C1_witness :
  fst (Legacy.get qs_plain (replying (legacy_reply 404 quota_headers))
         "/items/999" JUndefined fresh) = Return JNull
  /\ fst (Legacy.delete qs_plain (replying (legacy_reply 404 quota_headers))
            "/items/999" JUndefined fresh) =
       Throw (Error "Invalid URI on DELETE /items/999 (HTTP-404).")
  /\ fst (Connector.fetchItem qs_plain (answering not_found_json)
            (JNum 999) JUndefined idle) = Return JNull
  /\ fst (Connector.deleteItem qs_plain (answering not_found_json) (JNum 999) idle) =
       Throw (ApiError "Not Found" (JNum 404))
  /\ fst (Connector.createItem qs_plain (answering not_found_json) widget_item idle) =
       Throw (ApiError "Not Found" (JNum 404))
  /\ fst (Connector.doFetch qs_plain (answering not_found_json) "GET"
            "https://api.sortly.co/api/v1/items" JNull JUndefined None idle) =
       Throw (ApiError "Not Found" (JNum 404)).
Proof.
  destruct C1_not_found_null_on_read_error_otherwise as [Hl Hc].
  destruct (Hc qs_plain (answering not_found_json) not_found_json
              (JObject [("message", JString "Not Found")]) idle)
    as (Hdo & Hf & _ & Hd & _ & Hcr & _);
    [reflexivity | reflexivity | reflexivity | reflexivity |].
  split; [|split; [|split; [|split; [|split]]]].
  - apply (Hl qs_plain (replying (legacy_reply 404 quota_headers))
              (legacy_reply 404 quota_headers) "GET"
              (fun uri _ opts => Legacy.get qs_plain
                                   (replying (legacy_reply 404 quota_headers)) uri opts)
              "/items/999" JUndefined JUndefined fresh);
      [reflexivity | reflexivity | cbn; tauto].
  - apply (Hl qs_plain (replying (legacy_reply 404 quota_headers))
              (legacy_reply 404 quota_headers) "DELETE"
              (fun uri _ opts => Legacy.delete qs_plain
                                   (replying (legacy_reply 404 quota_headers)) uri opts)
              "/items/999" JUndefined JUndefined fresh);
      [reflexivity | reflexivity | cbn; tauto].
  - apply Hf. reflexivity.
  - apply Hd. reflexivity.
  - apply Hcr. reflexivity.
  - apply Hdo.
Defined.

(** The claim of C1 fails on the GET of [listCustomAttributes]: a 404 with
    a JSON body is thrown as an [ApiError], there being no catch for it
    outside [fetchItem]. *)
Lemma C1_listCustomAttributes_404_raises :
  Connector.status not_found_json = 404
  /\ Connector.fc_method <$>
       last (Connector.wire
               (snd (Connector.listCustomAttributes qs_plain (answering not_found_json)
                       (JNum 10) JUndefined idle))) = Some "GET"
  /\ fst (Connector.listCustomAttributes qs_plain (answering not_found_json)
            (JNum 10) JUndefined idle) = Throw (ApiError "Not Found" (JNum 404))
  /\ forall v, fst (Connector.listCustomAttributes qs_plain (answering not_found_json)
                      (JNum 10) JUndefined idle) <> Return v.
Proof.
  split; [reflexivity|]. split; [reflexivity|]. split; [reflexivity|].
  intros v. vm_compute. discriminate.
Qed.

(** ** C2: a 204 answer *)

(** C2, as the code has it.  For a 204 [SortlyConnector.doFetch] returns the
    empty object [{}] whatever the body is (decodable or not: it is not
    read); the 1.1.5 [Sortly] class returns [undefined] from every verb,
    again without looking at the body. *)
Theorem C2_no_content_empty_object_or_undefined :
  (forall qs_stringify fetch r method url query payload options w,
      (forall call, fetch call = Return r) ->
      Connector.status r = 204 ->
      fst (Connector.doFetch qs_stringify fetch method url query payload options w) =
        Return (JObject []))
  /\ (forall qs_stringify http r verb run uri entity opts w,
        (forall req, http req = Legacy.Answered r) ->
        im_statusCode r = 204 ->
        In (verb, run) (verbs qs_stringify http) ->
        fst (run uri entity opts w) = Return JUndefined).
Proof.
  split.
  - intros qs fetch r method url query payload options w Hnet H204.
    rewrite doFetch_run. cbn zeta. rewrite Hnet. unfold Connector.ok. rewrite H204.
    reflexivity.
  - intros qs http r verb run uri entity opts w Hnet H204 Hin.
    destruct (verbs_exchange _ _ _ _ Hin uri entity opts) as (b & reqbody & ->).
    rewrite (exchange_2xx http _ _ _ r (Hnet _)) by (rewrite H204; reflexivity).
    rewrite H204. reflexivity.
Qed.

Lemma C2_witness :
  fst (Connector.doFetch qs_plain (answering no_content) "DELETE"
         "https://api.sortly.co/api/v1/items/7" JUndefined JUndefined None idle) =
    Return (JObject [])
  /\ fst (Legacy.delete qs_plain (replying (legacy_reply 204 quota_headers))
            "/items/7" JUndefined fresh) = Return JUndefined.
Proof.
  destruct C2_no_content_empty_object_or_undefined as [Hc Hl]. split.
  - apply (Hc qs_plain (answering no_content) no_content); reflexivity.
  - apply (Hl qs_plain (replying (legacy_reply 204 quota_headers))
              (legacy_reply 204 quota_headers) "DELETE"
              (fun uri _ opts => Legacy.delete qs_plain
                                   (replying (legacy_reply 204 quota_headers)) uri opts)
              "/items/7" JUndefined JUndefined fresh);
      [reflexivity | reflexivity | cbn; tauto].
Defined.

(** The claim of C2 fails on the 1.1.5 class: a 204 answer to [deleteItem]
    comes back as [undefined], not as an empty object. *)
Lemma C2_legacy_no_content_is_undefined :
  im_statusCode (legacy_reply 204 quota_headers) = 204
  /\ fst (Legacy.deleteItem qs_plain (replying (legacy_reply 204 quota_headers))
            (JNum 7) fresh) = Return JUndefined
  /\ fst (Legacy.deleteItem qs_plain (replying (legacy_reply 204 quota_headers))
            (JNum 7) fresh) <> Return (JObject []).
Proof. split; [reflexivity|]. split; [reflexivity|]. vm_compute. discriminate. Qed.

(** ** C3: a 429 answer *)

(** C3, as the code has it.  On a 429 the 1.1.5 [Sortly] class throws
    [RateLimitExceeded]; its message contains the reset value the connector
    holds after this response (the [sortly-rate-limit-reset] header, or the
    value recorded before when the header is missing or empty), and one
    request has gone out.  [SortlyConnector] has no such error class: a 429
    whose body decodes is an [ApiError] with status 429 and the body's
    [message]; the reset value is on the connector only, and again one
    request has gone out. *)
Theorem C3_rate_limit_exceeded_once_with_reset :
  (forall qs_stringify http r verb run uri entity opts w,
      (forall req, http req = Legacy.Answered r) ->
      im_statusCode r = 429 ->
      In (verb, run) (verbs qs_stringify http) ->
      let out := run uri entity opts w in
      let reset := js_or (header_index (im_headers r) "sortly-rate-limit-reset")
                         (Legacy.rate_limit_reset (Legacy.self w)) in
      exists msg req,
        fst out = Throw (RateLimitExceeded msg)
        /\ contains msg (ToString reset)
        /\ Legacy.rate_limit_reset (Legacy.self (snd out)) = reset
        /\ Legacy.wire (snd out) = (Legacy.wire w ++ [req])%list)
  /\ (forall qs_stringify fetch r method url query payload options w v,
        (forall call, fetch call = Return r) ->
        Connector.status r = 429 ->
        Connector.json_body r = Some v -> is_nullish v = false ->
        let out := Connector.doFetch qs_stringify fetch method url query payload options w in
        fst out = Throw (ApiError (error_message (own_prop v "message")) (JNum 429))
        /\ Connector.rate_limit_reset (Connector.self (snd out)) =
             Headers_get (Connector.headers r) "Sortly-Rate-Limit-Reset"
        /\ Connector.wire (snd out) =
             (Connector.wire w ++
                [call_of qs_stringify (Connector.api_token (Connector.self w))
                         method url query payload options])%list).
Proof.
  split.
  - intros qs http r verb run uri entity opts w Hnet Hsc Hin out reset. subst out.
    destruct (verbs_exchange _ _ _ _ Hin uri entity opts) as (b & reqbody & ->).
    rewrite (exchange_429 http _ _ _ r (Hnet _) Hsc).
    eexists. eexists. cbn [fst snd]. split; [reflexivity|]. split.
    + exists ("Sortly rate limit exceeded on " +:+ verb +:+ " "
              +:+ Legacy.path_of qs uri opts +:+ ". Try again in "), " seconds.".
      cbn [Legacy.method Legacy.uri]. subst reset.
      generalize (ToString (js_or (header_index (im_headers r) "sortly-rate-limit-reset")
                                  (Legacy.rate_limit_reset (Legacy.self w)))).
      intros t. rewrite !append_assoc_r. reflexivity.
    + split; reflexivity.
  - intros qs fetch r method url query payload options w v Hnet Hsc Hv Hnn out. subst out.
    split; [|split].
    + rewrite doFetch_run. cbn zeta. rewrite Hnet. unfold Connector.ok. rewrite Hsc.
      cbn [Z.leb Z.ltb Z.compare Pos.compare Pos.compare_cont andb].
      rewrite handleNotOk_run, Hsc, Hv. cbn. rewrite Hnn. reflexivity.
    + rewrite doFetch_world. cbn zeta. rewrite Hnet. reflexivity.
    + rewrite doFetch_wire. reflexivity.
Qed.

Lemma C3_witness :
  (exists msg req,
      fst (Legacy.get qs_plain (replying (legacy_reply 429 quota_headers))
             "/items" JUndefined fresh) = Throw (RateLimitExceeded msg)
      /\ contains msg "37"
      /\ Legacy.rate_limit_reset
           (Legacy.self (snd (Legacy.get qs_plain (replying (legacy_reply 429 quota_headers))
                                "/items" JUndefined fresh))) = JString "37"
      /\ Legacy.wire (snd (Legacy.get qs_plain (replying (legacy_reply 429 quota_headers))
                             "/items" JUndefined fresh)) = (Legacy.wire fresh ++ [req])%list)
  /\ (fst (Connector.doFetch qs_plain (answering too_many) "POST"
             "https://api.sortly.co/api/v1/items/search" JNull widget_item None idle) =
        Throw (ApiError "Too Many Requests" (JNum 429))
      /\ Connector.rate_limit_reset
           (Connector.self
              (snd (Connector.doFetch qs_plain (answering too_many) "POST"
                      "https://api.sortly.co/api/v1/items/search" JNull widget_item None idle))) =
           JString "37"
      /\ Connector.wire
           (snd (Connector.doFetch qs_plain (answering too_many) "POST"
                   "https://api.sortly.co/api/v1/items/search" JNull widget_item None idle)) =
           (Connector.wire idle ++
              [call_of qs_plain "s3cr3t" "POST" "https://api.sortly.co/api/v1/items/search"
                       JNull widget_item None])%list).
Proof.
  destruct C3_rate_limit_exceeded_once_with_reset as [Hl Hc]. split.
  - apply (Hl qs_plain (replying (legacy_reply 429 quota_headers))
              (legacy_reply 429 quota_headers) "GET"
              (fun uri _ opts => Legacy.get qs_plain
                                   (replying (legacy_reply 429 quota_headers)) uri opts)
              "/items" JUndefined JUndefined fresh);
      [reflexivity | reflexivity | cbn; tauto].
  - apply (Hc qs_plain (answering too_many) too_many "POST"
              "https://api.sortly.co/api/v1/items/search" JNull widget_item None idle
              (JObject [("message", JString "Too Many Requests")])); reflexivity.
Defined.

(** The claim of C3 fails on [SortlyConnector]: a 429 is thrown as a plain
    [ApiError] carrying the body's message, not as a rate-limit error. *)
Lemma C3_connector_429_is_a_plain_ApiError :
  Connector.status too_many = 429
  /\ fst (Connector.searchItems qs_plain (answering too_many) widget_item idle) =
       Throw (ApiError "Too Many Requests" (JNum 429))
  /\ forall msg,
       fst (Connector.searchItems qs_plain (answering too_many) widget_item idle) <>
         Throw (RateLimitExceeded msg).
Proof.
  split; [reflexivity|]. split; [reflexivity|]. intros msg. vm_compute. discriminate.
Qed.

(** ** C4: rate-limit bookkeeping *)

(** C4, as the code has it.  After [SortlyConnector.doFetch] has received a
    response (any status, body decodable or not) each of the three
    rate-limit fields is the value of its header, and [null] when the header
    is absent.  In the 1.1.5 [Sortly] class a 2xx response sets the four
    fields to the header values, [undefined] when absent; any other response
    sets the three rate-limit fields to the header value when the header is
    there and not empty and keeps the earlier value otherwise, and sets
    [request_id] to the header value or [undefined]. *)
Theorem C4_rate_limit_fields_after_a_response :
  (forall qs_stringify fetch r method url query payload options w,
      (forall call, fetch call = Return r) ->
      let me := Connector.self
                  (snd (Connector.doFetch qs_stringify fetch method url query payload
                          options w)) in
      Connector.rate_limit_max me =
        header_or JNull (Connector.headers r) "sortly-rate-limit-max"
      /\ Connector.rate_limit_remaining me =
           header_or JNull (Connector.headers r) "sortly-rate-limit-remaining"
      /\ Connector.rate_limit_reset me =
           header_or JNull (Connector.headers r) "sortly-rate-limit-reset")
  /\ (forall qs_stringify http r verb run uri entity opts w,
        (forall req, http req = Legacy.Answered r) ->
        In (verb, run) (verbs qs_stringify http) ->
        let before := Legacy.self w in
        let after := Legacy.self (snd (run uri entity opts w)) in
        let h := im_headers r in
        if (200 <=? im_statusCode r) && (im_statusCode r <? 300) then
          Legacy.rate_limit after = header_or JUndefined h "sortly-rate-limit-max"
          /\ Legacy.rate_limit_remaining after =
               header_or JUndefined h "sortly-rate-limit-remaining"
          /\ Legacy.rate_limit_reset after = header_or JUndefined h "sortly-rate-limit-reset"
          /\ Legacy.request_id after = header_or JUndefined h "x-request-id"
        else
          Legacy.rate_limit after =
            header_else (Legacy.rate_limit before) h "sortly-rate-limit-max"
          /\ Legacy.rate_limit_remaining after =
               header_else (Legacy.rate_limit_remaining before) h "sortly-rate-limit-remaining"
          /\ Legacy.rate_limit_reset after =
               header_else (Legacy.rate_limit_reset before) h "sortly-rate-limit-reset"
          /\ Legacy.request_id after = header_or JUndefined h "x-request-id").
Proof.
  split.
  - intros qs fetch r method url query payload options w Hnet me. subst me.
    rewrite doFetch_world. cbn zeta. rewrite Hnet. repeat split.
  - intros qs http r verb run uri entity opts w Hnet Hin before after h.
    subst before after h.
    destruct (verbs_exchange _ _ _ _ Hin uri entity opts) as (b & reqbody & ->).
    rewrite (exchange_world http _ _ _ r (Hnet _)).
    destruct ((200 <=? im_statusCode r) && (im_statusCode r <? 300)).
    + repeat split.
    + cbn [after_failure sent_req Legacy.self Legacy.rate_limit Legacy.rate_limit_remaining
           Legacy.rate_limit_reset Legacy.request_id].
      rewrite !js_or_header_else. repeat split.
Qed.

Lemma C4_witness :
  (Connector.rate_limit_max
     (Connector.self (snd (Connector.doFetch qs_plain (answering bare_ok) "GET"
                             "https://api.sortly.co/api/v1/items" JNull JUndefined None busy))) =
     JNull
   /\ Connector.rate_limit_remaining
        (Connector.self (snd (Connector.doFetch qs_plain (answering bare_ok) "GET"
                                "https://api.sortly.co/api/v1/items" JNull JUndefined None busy))) =
        JNull
   /\ Connector.rate_limit_reset
        (Connector.self (snd (Connector.doFetch qs_plain (answering bare_ok) "GET"
                                "https://api.sortly.co/api/v1/items" JNull JUndefined None busy))) =
        JNull)
  /\ (Legacy.rate_limit
        (Legacy.self (snd (Legacy.get qs_plain (replying (legacy_reply 500 quota_headers))
                             "/items" JUndefined fresh))) = JString "1000"
      /\ Legacy.rate_limit_remaining
           (Legacy.self (snd (Legacy.get qs_plain (replying (legacy_reply 500 quota_headers))
                                "/items" JUndefined fresh))) = JString "0"
      /\ Legacy.rate_limit_reset
           (Legacy.self (snd (Legacy.get qs_plain (replying (legacy_reply 500 quota_headers))
                                "/items" JUndefined fresh))) = JString "37"
      /\ Legacy.request_id
           (Legacy.self (snd (Legacy.get qs_plain (replying (legacy_reply 500 quota_headers))
                                "/items" JUndefined fresh))) = JUndefined).
Proof.
  destruct C4_rate_limit_fields_after_a_response as [Hc Hl]. split.
  - apply (Hc qs_plain (answering bare_ok) bare_ok "GET"
              "https://api.sortly.co/api/v1/items" JNull JUndefined None busy).
    reflexivity.
  - exact (Hl qs_plain (replying (legacy_reply 500 quota_headers))
              (legacy_reply 500 quota_headers) "GET"
              (fun uri _ opts => Legacy.get qs_plain
                                   (replying (legacy_reply 500 quota_headers)) uri opts)
              "/items" JUndefined JUndefined fresh
              (fun _ => eq_refl) (or_introl eq_refl)).
Defined.

(** The claim of C4 fails on [SortlyConnector]: a response without the
    rate-limit headers wipes the values recorded before. *)
Lemma C4_absent_headers_overwrite_with_null :
  Connector.headers bare_ok !! "sortly-rate-limit-max" = None
  /\ Connector.rate_limit_max (Connector.self busy) = JString "1000"
  /\ Connector.rate_limit_max
       (Connector.self (snd (Connector.searchItems qs_plain (answering bare_ok)
                               widget_item busy))) = JNull
  /\ Connector.rate_limit_max
       (Connector.self (snd (Connector.searchItems qs_plain (answering bare_ok)
                               widget_item busy))) <>
     Connector.rate_limit_max (Connector.self busy).
Proof.
  split; [reflexivity|]. split; [reflexivity|]. split; [reflexivity|].
  vm_compute. discriminate.
Qed.

(** ** C5: 401 and 403 *)

(** C5, as the code has it.  For a 401 or a 403 whose body decodes as JSON,
    [SortlyConnector.doFetch] throws an [ApiAuthError] whose message is the
    decoded body serialised again and whose status is the response status.
    The 1.1.5 [Sortly] class has no error kind for authorization: it throws
    a plain [Error], "Authorization Error" for a 401 and "Unhandled Error"
    for a 403, with verb, uri, status and the serialised body in the
    text. *)
Theorem C5_authorization_errors :
  (forall qs_stringify fetch r v method url query payload options w,
      (forall call, fetch call = Return r) ->
      Connector.status r = 401 \/ Connector.status r = 403 ->
      Connector.json_body r = Some v ->
      fst (Connector.doFetch qs_stringify fetch method url query payload options w) =
        Throw (ApiAuthError (error_message (stringify_val v)) (JNum (Connector.status r))))
  /\ (forall qs_stringify http r verb run uri entity opts w,
        (forall req, http req = Legacy.Answered r) ->
        In (verb, run) (verbs qs_stringify http) ->
        (im_statusCode r = 401 ->
         fst (run uri entity opts w) =
           Throw (Error ("Authorization Error on " +:+ verb +:+ " "
                         +:+ Legacy.path_of qs_stringify uri opts
                         +:+ " (HTTP-401). 401 - " +:+ stringified (im_body r))))
        /\ (im_statusCode r = 403 ->
            fst (run uri entity opts w) =
              Throw (Error ("Unhandled Error on " +:+ verb +:+ " "
                            +:+ Legacy.path_of qs_stringify uri opts
                            +:+ " (HTTP-403). 403 - " +:+ stringified (im_body r))))).
Proof.
  split.
  - intros qs fetch r v method url query payload options w Hnet Hsc Hv.
    rewrite doFetch_run. cbn zeta. rewrite Hnet. unfold Connector.ok.
    rewrite handleNotOk_run, Hv.
    destruct Hsc as [Hsc|Hsc]; rewrite Hsc; reflexivity.
  - intros qs http r verb run uri entity opts w Hnet Hin.
    destruct (verbs_exchange _ _ _ _ Hin uri entity opts) as (b & reqbody & ->).
    split; intros Hsc.
    + rewrite (exchange_401 http _ _ _ r (Hnet _) Hsc). reflexivity.
    + rewrite (exchange_403 http _ _ _ r (Hnet _) Hsc). reflexivity.
Qed.

Lemma C5_witness :
  fst (Connector.doFetch qs_plain (answering unauthorized_json) "GET"
         "https://api.sortly.co/api/v1/items" JNull JUndefined None idle) =
    Throw (ApiAuthError ("{" +:+ quoted "error" +:+ ":" +:+ quoted "bad token" +:+ "}")
                        (JNum 401))
  /\ fst (Legacy.get qs_plain (replying (legacy_reply 401 quota_headers))
            "/items" JUndefined fresh) =
       Throw (Error ("Authorization Error on GET /items (HTTP-401). 401 - "
                     +:+ stringified (im_body (legacy_reply 401 quota_headers)))).
Proof.
  destruct C5_authorization_errors as [Hc Hl]. split.
  - exact (Hc qs_plain (answering unauthorized_json) unauthorized_json
              (JObject [("error", JString "bad token")]) "GET"
              "https://api.sortly.co/api/v1/items" JNull JUndefined None idle
              (fun _ => eq_refl) (or_introl eq_refl) eq_refl).
  - exact (proj1 (Hl qs_plain (replying (legacy_reply 401 quota_headers))
                     (legacy_reply 401 quota_headers) "GET"
                     (fun uri _ opts => Legacy.get qs_plain
                                          (replying (legacy_reply 401 quota_headers)) uri opts)
                     "/items" JUndefined JUndefined fresh
                     (fun _ => eq_refl) (or_introl eq_refl)) eq_refl).
Defined.

(** The claim of C5 fails on the 1.1.5 class: a 403 is thrown as a plain
    [Error] titled "Unhandled Error", its [switch] having a case for 401
    only and no error kind for authorization. *)
Lemma C5_legacy_403_is_an_unhandled_plain_Error :
  im_statusCode (legacy_reply 403 quota_headers) = 403
  /\ fst (Legacy.get qs_plain (replying (legacy_reply 403 quota_headers))
            "/items" JUndefined fresh) =
       Throw (Error ("Unhandled Error on GET /items (HTTP-403). 403 - "
                     +:+ stringified (im_body (legacy_reply 403 quota_headers))))
  /\ forall msg st,
       fst (Legacy.get qs_plain (replying (legacy_reply 403 quota_headers))
              "/items" JUndefined fresh) <> Throw (ApiAuthError msg st).
Proof.
  split; [reflexivity|]. split; [reflexivity|]. intros msg st. vm_compute. discriminate.
Qed.

(** ** C6: caller-supplied headers *)

(** C6.  [doFetch] called with [options.headers = {"X-Trace": "abc"}] sends
    the three default headers together with the supplied one, in both
    [SortlyConnector] versions: the supplied hash is merged into the
    defaults, it does not replace them. *)
Theorem C6_supplied_headers_are_merged_into_defaults :
  map Connector.fc_headers
    (Connector.wire
       (snd (Connector.doFetch qs_plain (answering bare_ok) "GET"
               "https://api.sortly.co/api/v1/items" JNull JUndefined
               (Some trace_only) idle))) =
    [ {[ "Content-Type" := "application/json";
         "User-Agent" := "Apigrate Sortly Connector/2.x";
         "Authorization" := "Bearer s3cr3t";
         "X-Trace" := "abc" ]} ]
  /\ map Connector.fc_headers
       (Connector0.wire
          (snd (Connector0.doFetch qs_plain (answering bare_ok) "GET"
                  "https://api.sortly.co/api/v1/items" JNull JUndefined
                  (Some trace_only) acme0))) =
       [ {[ "Content-Type" := "application/json";
            "User-Agent" := "Apigrate Sortly Connector/2.x";
            "Authorization" := "Bearer s3cr3t";
            "X-Trace" := "abc" ]} ]
  /\ map Connector.fc_headers
       (Connector.wire
          (snd (Connector.doFetch qs_plain (answering bare_ok) "GET"
                  "https://api.sortly.co/api/v1/items" JNull JUndefined
                  (Some trace_only) idle))) <>
     [ {[ "X-Trace" := "abc" ]} ].
Proof.
  split; [vm_compute; reflexivity|]. split; [vm_compute; reflexivity|].
  intros H. apply (f_equal (fun l => match l with
                                     | [h] => h !! "Authorization"
                                     | _ => None
                                     end)) in H.
  vm_compute in H. discriminate.
Qed.

(** ** C7: statuses outside 2xx, 4xx and 5xx *)

(** C7, as the code has it.  In both [SortlyConnector] versions a response
    with a status below 200 makes [doFetch] throw (the identifier thrown in
    the last branch of [handleNotOk] is not declared, or the body does not
    decode), while a 3xx response whose body decodes is handed back to the
    caller as that decoded body, with no error: the redirection branch of
    [handleNotOk] is empty. *)
Theorem C7_below_200_throws_redirection_passes_through :
  (forall qs_stringify fetch r method url query payload options w,
      (forall call, fetch call = Return r) ->
      (Connector.status r < 200 ->
       fst (Connector.doFetch qs_stringify fetch method url query payload options w) =
         Throw (match Connector.json_body r with
                | Some _ => ReferenceError "err is not defined"
                | None => FetchError "invalid json response body"
                end))
      /\ (300 <= Connector.status r < 400 ->
          forall v, Connector.json_body r = Some v ->
            fst (Connector.doFetch qs_stringify fetch method url query payload options w) =
              Return v))
  /\ (forall qs_stringify fetch r method url query payload options w,
        (forall call, fetch call = Return r) ->
        (Connector.status r < 200 ->
         fst (Connector0.doFetch qs_stringify fetch method url query payload options w) =
           Throw (match Connector.json_body r with
                  | Some _ => ReferenceError "err is not defined"
                  | None => FetchError "invalid json response body"
                  end))
        /\ (300 <= Connector.status r < 400 ->
            forall v, Connector.json_body r = Some v ->
              fst (Connector0.doFetch qs_stringify fetch method url query payload options w) =
                Return v)).
Proof.
  split; intros qs fetch r method url query payload options w Hnet; split.
  - intros Hlow. rewrite doFetch_run. cbn zeta. rewrite Hnet. unfold Connector.ok.
    replace ((200 <=? Connector.status r) && (Connector.status r <? 300)) with false by lia.
    rewrite handleNotOk_run. destruct (Connector.json_body r); [|reflexivity]. cbn zeta.
    replace ((300 <=? Connector.status r) && (Connector.status r <? 400)) with false by lia.
    replace ((400 <=? Connector.status r) && (Connector.status r <? 500)) with false by lia.
    replace (500 <=? Connector.status r) with false by lia. reflexivity.
  - intros H3 v Hv. rewrite doFetch_run. cbn zeta. rewrite Hnet. unfold Connector.ok.
    replace ((200 <=? Connector.status r) && (Connector.status r <? 300)) with false by lia.
    rewrite handleNotOk_run, Hv. cbn zeta.
    replace ((300 <=? Connector.status r) && (Connector.status r <? 400)) with true by lia.
    reflexivity.
  - intros Hlow. rewrite doFetch0_run. cbn zeta. rewrite Hnet. unfold Connector.ok.
    replace ((200 <=? Connector.status r) && (Connector.status r <? 300)) with false by lia.
    rewrite handleNotOk0_run. destruct (Connector.json_body r); [|reflexivity]. cbn zeta.
    replace ((300 <=? Connector.status r) && (Connector.status r <? 400)) with false by lia.
    replace ((400 <=? Connector.status r) && (Connector.status r <? 500)) with false by lia.
    replace (500 <=? Connector.status r) with false by lia. reflexivity.
  - intros H3 v Hv. rewrite doFetch0_run. cbn zeta. rewrite Hnet. unfold Connector.ok.
    replace ((200 <=? Connector.status r) && (Connector.status r <? 300)) with false by lia.
    rewrite handleNotOk0_run, Hv. cbn zeta.
    replace ((300 <=? Connector.status r) && (Connector.status r <? 400)) with true by lia.
    reflexivity.
Qed.

Lemma C7_witness :
  fst (Connector.doFetch qs_plain (answering early_hints) "GET"
         "https://api.sortly.co/api/v1/items" JNull JUndefined None idle) =
    Throw (ReferenceError "err is not defined")
  /\ fst (Connector.doFetch qs_plain (answering multiple_choices) "GET"
            "https://api.sortly.co/api/v1/items" JNull JUndefined None idle) =
       Return (JObject [("choices", JArray [])])
  /\ fst (Connector0.doFetch qs_plain (answering multiple_choices) "GET"
            "https://api.sortly.co/api/v1/items" JNull JUndefined None acme0) =
       Return (JObject [("choices", JArray [])]).
Proof.
  destruct C7_below_200_throws_redirection_passes_through as [Hc H0].
  split; [|split].
  - apply (proj1 (Hc qs_plain (answering early_hints) early_hints "GET"
                     "https://api.sortly.co/api/v1/items" JNull JUndefined None idle
                     (fun _ => eq_refl))).
    reflexivity.
  - apply (proj2 (Hc qs_plain (answering multiple_choices) multiple_choices "GET"
                     "https://api.sortly.co/api/v1/items" JNull JUndefined None idle
                     (fun _ => eq_refl))); [simpl; lia | reflexivity].
  - apply (proj2 (H0 qs_plain (answering multiple_choices) multiple_choices "GET"
                     "https://api.sortly.co/api/v1/items" JNull JUndefined None acme0
                     (fun _ => eq_refl))); [simpl; lia | reflexivity].
Defined.

(** The claim of C7 fails on a redirection status: a 300 with a JSON body
    comes back from [searchItems] as ordinary data. *)
Lemma C7_redirection_returns_data :
  Connector.status multiple_choices = 300
  /\ fst (Connector.searchItems qs_plain (answering multiple_choices) widget_item idle) =
       Return (JObject [("choices", JArray [])])
  /\ forall e,
       fst (Connector.searchItems qs_plain (answering multiple_choices) widget_item idle) <>
         Throw e.
Proof.
  split; [reflexivity|]. split; [reflexivity|]. intros e. vm_compute. discriminate.
Qed.

(** ** C8: local validation *)

(** C8. [createItem] without a non-empty [name], [moveItem] without an item
    id or with [quantity] absent, and [updateItem] without an [id] throw an
    [ApiError] and leave the world as it was: nothing has been put on the
    wire and no field of the connector has changed.  A [quantity] of zero is
    not rejected: the move request goes out. *)
Theorem C8_required_fields_checked_before_any_request
    (qs_stringify : JsVal -> string)
    (fetch : Connector.FetchCall -> Completion Connector.Response)
    (w : Connector.World) :
  (forall item,
      truthy (own_prop item "name") = false ->
      exists msg,
        Connector.createItem qs_stringify fetch item w = (Throw (ApiError msg JUndefined), w))
  /\ (forall item_id quantity folder_id leave_zero_quantity,
        truthy item_id = false \/ is_nullish quantity = true ->
        exists msg,
          Connector.moveItem qs_stringify fetch item_id quantity folder_id
                             leave_zero_quantity w =
            (Throw (ApiError msg JUndefined), w))
  /\ (forall item,
        truthy (own_prop item "id") = false ->
        exists msg,
          Connector.updateItem qs_stringify fetch item w = (Throw (ApiError msg JUndefined), w))
  /\ (forall item_id folder_id leave_zero_quantity,
        truthy item_id = true ->
        exists call,
          Connector.wire (snd (Connector.moveItem qs_stringify fetch item_id (JNum 0)
                                 folder_id leave_zero_quantity w)) =
            (Connector.wire w ++ [call])%list
          /\ Connector.fc_method call = "POST"
          /\ Connector.fc_url call =
               Connector.base_url (Connector.self w) +:+ "/items/"
               +:+ ToString item_id +:+ "/move").
Proof.
  split; [|split; [|split]].
  - intros item. apply createItem_unnamed.
  - intros item_id quantity folder_id lzq. apply moveItem_incomplete.
  - intros item. apply updateItem_without_id.
  - intros item_id folder_id lzq. apply moveItem_zero_goes_out.
Qed.

Lemma C8_witness :
  (exists msg,
      Connector.createItem qs_plain (answering not_found_json)
        (JObject [("name", JString "")]) idle = (Throw (ApiError msg JUndefined), idle))
  /\ (exists msg,
        Connector.moveItem qs_plain (answering not_found_json)
          (JNum 5) JUndefined (JNum 10) JUndefined idle = (Throw (ApiError msg JUndefined), idle))
  /\ (exists msg,
        Connector.updateItem qs_plain (answering not_found_json)
          (JObject [("name", JString "Widget")]) idle = (Throw (ApiError msg JUndefined), idle))
  /\ (exists call,
        Connector.wire (snd (Connector.moveItem qs_plain (answering not_found_json)
                               (JNum 5) (JNum 0) (JNum 10) JUndefined idle)) =
          (Connector.wire idle ++ [call])%list
        /\ Connector.fc_method call = "POST"
        /\ Connector.fc_url call =
             Connector.base_url (Connector.self idle) +:+ "/items/"
             +:+ ToString (JNum 5) +:+ "/move").
Proof.
  destruct (C8_required_fields_checked_before_any_request
              qs_plain (answering not_found_json) idle) as (Hc & Hm & Hu & Hz).
  split; [apply Hc; reflexivity|].
  split; [apply Hm; right; reflexivity|].
  split; [apply Hu; reflexivity|].
  apply Hz; reflexivity.
Defined.

(** ** C9: creating a widget *)

Lemma widget_item_serialised : JSON_stringify widget_item = Some widget_json.
Proof. reflexivity. Qed.

(** C9. [createItem({name: "Widget"})] puts one POST to [<base_url>/items]
    on the wire, with the default headers and the body [{"name":"Widget"}];
    when the answer is a 201 whose body decodes to
    [{"data":{"id":42,"name":"Widget"}}], the operation returns the inner
    object [{"id":42,"name":"Widget"}]. *)
Theorem C9_createItem_widget_returns_data
    (qs_stringify : JsVal -> string)
    (fetch : Connector.FetchCall -> Completion Connector.Response)
    (w : Connector.World) (hdrs : Headers) :
  let call :=
    {| Connector.fc_url := Connector.base_url (Connector.self w) +:+ "/items";
       Connector.fc_method := "POST";
       Connector.fc_headers :=
         Connector.default_headers (Connector.api_token (Connector.self w));
       Connector.fc_body := Some widget_json |} in
  fetch call =
    Return {| Connector.status := 201; Connector.headers := hdrs;
              Connector.json_body := Some widget_envelope |} ->
  fst (Connector.createItem qs_stringify fetch widget_item w) = Return widget_data
  /\ Connector.wire (snd (Connector.createItem qs_stringify fetch widget_item w)) =
       (Connector.wire w ++ [call])%list.
Proof.
  intros call Hnet.
  assert (Hcall : call_of qs_stringify (Connector.api_token (Connector.self w)) "POST"
                    (Connector.base_url (Connector.self w) +:+ "/items")
                    JNull widget_item None = call).
  { unfold call_of, call. cbn [truthy widget_item]. rewrite append_empty_r. reflexivity. }
  unfold Connector.createItem.
  change (truthy widget_item) with true.
  change (truthy (own_prop widget_item "name")) with true.
  cbn [negb]. unfold bind at 1 3. unfold get_state at 1 2.
  unfold bind. rewrite doFetch_run. cbn zeta. rewrite Hcall, Hnet.
  split; reflexivity.
Qed.

Lemma C9_witness :
  fst (Connector.createItem qs_plain
         (answering {| Connector.status := 201; Connector.headers := quota_headers;
                       Connector.json_body := Some widget_envelope |})
         widget_item idle) = Return widget_data
  /\ Connector.wire
       (snd (Connector.createItem qs_plain
               (answering {| Connector.status := 201; Connector.headers := quota_headers;
                             Connector.json_body := Some widget_envelope |})
               widget_item idle)) =
       (Connector.wire idle ++
          [{| Connector.fc_url := Connector.base_url (Connector.self idle) +:+ "/items";
              Connector.fc_method := "POST";
              Connector.fc_headers :=
                Connector.default_headers (Connector.api_token (Connector.self idle));
              Connector.fc_body := Some widget_json |}])%list.
Proof.
  apply (C9_createItem_widget_returns_data qs_plain _ idle quota_headers).
  reflexivity.
Defined.

(** ** C10: success without data *)

Section SuccessWithoutData.

Variable qs_stringify : JsVal -> string.
Variable fetch : Connector.FetchCall -> Completion Connector.Response.
Variable r : Connector.Response.
Hypothesis Hnet : forall call, fetch call = Return r.
Hypothesis Hok : Connector.ok r = true.
Hypothesis Hbody :
  Connector.status r = 204
  \/ exists v, Connector.json_body r = Some v
               /\ (truthy v = false \/ has_prop v "data" = false).

Lemma doFetch_without_data method url query payload options w :
  exists result,
    fst (Connector.doFetch qs_stringify fetch method url query payload options w) = Return result
    /\ Connector.unwrap_data result = JNull.
Proof.
  rewrite doFetch_run. cbn zeta. rewrite Hnet, Hok.
  destruct Hbody as [H204 | (v & Hv & Hlack)].
  - rewrite H204. cbn. eexists. split; reflexivity.
  - destruct (Connector.status r =? 204).
    + eexists. split; reflexivity.
    + unfold Connector.json. rewrite Hv. exists v. split; [reflexivity|].
      apply unwrap_data_null, Hlack.
Qed.

Lemma createItem_without_data item w :
  truthy (own_prop item "name") = true ->
  fst (Connector.createItem qs_stringify fetch item w) = Return JNull.
Proof.
  intros Hname. unfold Connector.createItem.
  rewrite (truthy_prop_object _ _ Hname), Hname. cbn [negb].
  unfold bind at 1. unfold get_state at 1. unfold bind.
  match goal with |- context [Connector.doFetch ?q ?f ?m ?u ?qy ?p ?o w] =>
    destruct (doFetch_without_data m u qy p o w) as (res & Hres & Hnull);
    destruct (Connector.doFetch q f m u qy p o w) as [c w'] end.
  cbn [fst] in Hres. subst c. cbn. rewrite Hnull. reflexivity.
Qed.

Lemma fetchItem_without_data id include w :
  truthy id = true ->
  fst (Connector.fetchItem qs_stringify fetch id include w) = Return JNull.
Proof.
  intros Hid. unfold Connector.fetchItem. rewrite Hid. cbn [negb].
  unfold try_catch. unfold bind at 1. unfold get_state at 1. unfold bind.
  match goal with |- context [Connector.doFetch ?q ?f ?m ?u ?qy ?p ?o w] =>
    destruct (doFetch_without_data m u qy p o w) as (res & Hres & Hnull);
    destruct (Connector.doFetch q f m u qy p o w) as [c w'] end.
  cbn [fst] in Hres. subst c. cbn. rewrite Hnull. reflexivity.
Qed.

Lemma moveItem_without_data item_id quantity folder_id leave_zero_quantity w :
  truthy item_id = true -> is_nullish quantity = false ->
  fst (Connector.moveItem qs_stringify fetch item_id quantity folder_id
         leave_zero_quantity w) = Return JNull.
Proof.
  intros Hid Hq. unfold Connector.moveItem. rewrite Hid, Hq. cbn [negb].
  unfold bind at 1. unfold get_state at 1. unfold bind.
  match goal with |- context [Connector.doFetch ?q ?f ?m ?u ?qy ?p ?o w] =>
    destruct (doFetch_without_data m u qy p o w) as (res & Hres & Hnull);
    destruct (Connector.doFetch q f m u qy p o w) as [c w'] end.
  cbn [fst] in Hres. subst c. cbn. rewrite Hnull. reflexivity.
Qed.

End SuccessWithoutData.

(** C10. When the call behind [createItem], [fetchItem] or [moveItem]
    succeeds (2xx) and the value it yields is falsy or has no [data]
    property (a decoded body like that, or the empty object of a 204), the
    operation returns [null], neither the body nor the envelope. *)
Theorem C10_success_without_data_is_null
    (qs_stringify : JsVal -> string)
    (fetch : Connector.FetchCall -> Completion Connector.Response)
    (r : Connector.Response) (w : Connector.World) :
  (forall call, fetch call = Return r) ->
  Connector.ok r = true ->
  (Connector.status r = 204
   \/ exists v, Connector.json_body r = Some v
                /\ (truthy v = false \/ has_prop v "data" = false)) ->
  (forall item,
      truthy (own_prop item "name") = true ->
      fst (Connector.createItem qs_stringify fetch item w) = Return JNull)
  /\ (forall id include,
        truthy id = true ->
        fst (Connector.fetchItem qs_stringify fetch id include w) = Return JNull)
  /\ (forall item_id quantity folder_id leave_zero_quantity,
        truthy item_id = true -> is_nullish quantity = false ->
        fst (Connector.moveItem qs_stringify fetch item_id quantity folder_id
               leave_zero_quantity w) = Return JNull).
Proof.
  intros Hnet Hok Hbody. split; [|split].
  - intros item. now apply createItem_without_data with (r := r).
  - intros id include. now apply fetchItem_without_data with (r := r).
  - intros item_id quantity folder_id lzq. now apply moveItem_without_data with (r := r).
Qed.

Lemma C10_witness :
  fst (Connector.createItem qs_plain (answering ok_without_data) widget_item idle) = Return JNull
  /\ fst (Connector.fetchItem qs_plain (answering ok_without_data)
            (JNum 999) JUndefined idle) = Return JNull
  /\ fst (Connector.moveItem qs_plain (answering ok_without_data)
            (JNum 5) (JNum 2) (JNum 10) JUndefined idle) = Return JNull.
Proof.
  destruct (C10_success_without_data_is_null qs_plain (answering ok_without_data)
              ok_without_data idle) as (Hc & Hf & Hm).
  - reflexivity.
  - reflexivity.
  - right. eexists. split; [reflexivity|]. right. reflexivity.
  - split; [apply Hc; reflexivity|].
    split; [apply Hf; reflexivity|].
    apply Hm; reflexivity.
Defined.

(** ** Further scenarios of the specification *)

(** [moveItem(5, 2, 10)]: the body is [{"quantity":2,"folder_id":10}], the
    target [<base_url>/items/5/move], and the [data] object comes back. *)
Lemma moveItem_scenario :
  let out := Connector.moveItem qs_plain
               (answering {| Connector.status := 200; Connector.headers := quota_headers;
                             Connector.json_body := Some widget_envelope |})
               (JNum 5) (JNum 2) (JNum 10) JUndefined idle in
  fst out = Return widget_data
  /\ map Connector.fc_url (Connector.wire (snd out)) =
       ["https://api.sortly.co/api/v1/items/5/move"]
  /\ map Connector.fc_body (Connector.wire (snd out)) =
       [Some ("{" +:+ quoted "quantity" +:+ ":2," +:+ quoted "folder_id" +:+ ":10}")].
Proof. vm_compute. repeat split. Qed.

(** A successful answer other than 204 is returned as decoded. *)
Lemma doFetch_success_is_the_decoded_body qs_stringify fetch r v method url query payload
    options w :
  (forall call, fetch call = Return r) ->
  Connector.ok r = true -> Connector.status r <> 204 ->
  Connector.json_body r = Some v ->
  fst (Connector.doFetch qs_stringify fetch method url query payload options w) = Return v.
Proof.
  intros Hnet Hok H204 Hv. rewrite doFetch_run. cbn zeta. rewrite Hnet, Hok.
  replace (Connector.status r =? 204) with false by lia.
  unfold Connector.json. rewrite Hv. reflexivity.
Qed.

(** Whatever [options.headers] holds is laid over the defaults; a default
    the caller did not name stays in the request. *)
Lemma supplied_headers_overlay qs_stringify token method url query payload h retries k :
  h !! k = None ->
  Connector.fc_headers
    (call_of qs_stringify token method url query payload
             (Some {| Connector.opt_headers := Some h; Connector.opt_retries := retries |}))
    !! k = Connector.default_headers token !! k.
Proof.
  intros Hk. cbn [call_of Connector.fc_headers]. unfold Object_assign.
  rewrite lookup_union_r by exact Hk. reflexivity.
Qed.

(** A failure answer without rate-limit headers leaves the legacy counters
    where they were; a success answer without them does not. *)
Lemma legacy_counters_without_headers :
  Legacy.rate_limit
    (Legacy.self (snd (Legacy.get qs_plain (replying (legacy_reply 500 ∅))
                         "/items" JUndefined fresh))) = JNum 0
  /\ Legacy.rate_limit
       (Legacy.self (snd (Legacy.get qs_plain (replying (legacy_reply 200 ∅))
                            "/items" JUndefined fresh))) = JUndefined.
Proof. split; reflexivity. Qed.

(** Without a response at all the legacy class fails on [resp.response]. *)
Lemma legacy_transport_failure uri opts w :
  fst (Legacy.get qs_plain (fun _ => Legacy.Failed "ECONNREFUSED") uri opts w) =
    Throw (TypeError "Cannot read property 'headers' of undefined").
Proof. reflexivity. Qed.

(** In the legacy class a status below 200 or in 3xx ends in the read of
    an undeclared identifier. *)
Lemma legacy_unclassified_status qs_stringify http r verb run uri entity opts w :
  (forall req, http req = Legacy.Answered r) ->
  im_statusCode r < 200 \/ 300 <= im_statusCode r < 400 ->
  In (verb, run) (verbs qs_stringify http) ->
  fst (run uri entity opts w) = Throw (ReferenceError "responseBody is not defined").
Proof.
  intros Hnet Hsc Hin.
  destruct (verbs_exchange _ _ _ _ Hin uri entity opts) as (b & reqbody & ->).
  rewrite (exchange_unclassified http _ _ _ r (Hnet _) Hsc). reflexivity.
Qed.

(** * Further properties of the code *)

(** ** [SortlyConnector.doFetch] *)

Lemma stringify_truthy v : truthy v = true -> is_Some (JSON_stringify v).
Proof.
  destruct v as [| |b|z|s|l|l]; cbn; try discriminate; intros _; eauto.
  destruct b; eauto.
Qed.

Lemma bind_get_state {S A} (k : S -> M S A) w : (s <- get_state ;; k s) w = k w w.
Proof. reflexivity. Qed.

Lemma bind_ret_world {S A B} (c : M S A) (f : A -> B) w :
  snd ((x <- c ;; ret (f x)) w) = snd (c w).
Proof. unfold bind, ret. destruct (c w) as [[a|e] w']; reflexivity. Qed.

Lemma bind_ret_value {S A B} (c : M S A) (f : A -> B) w :
  fst ((x <- c ;; ret (f x)) w) =
    match fst (c w) with Return a => Return (f a) | Throw e => Throw e end.
Proof. unfold bind, ret. destruct (c w) as [[a|e] w']; reflexivity. Qed.

(** When the network gives no response, [doFetch] throws what [fetch]
    threw; the request has gone out once and no field of the connector has
    been touched. *)
Theorem doFetch_transport_failure_propagates
    qs_stringify fetch method url query payload options w e :
  fetch (call_of qs_stringify (Connector.api_token (Connector.self w))
                 method url query payload options) = Throw e ->
  Connector.doFetch qs_stringify fetch method url query payload options w =
    (Throw e,
     {| Connector.self := Connector.self w;
        Connector.wire :=
          (Connector.wire w ++
             [call_of qs_stringify (Connector.api_token (Connector.self w))
                      method url query payload options])%list |}).
Proof. intros Hnet. rewrite doFetch_run. cbn zeta. rewrite Hnet. reflexivity. Qed.

Lemma doFetch_transport_failure_propagates_witness :
  Connector.doFetch qs_plain refusing "GET" "https://api.sortly.co/api/v1/items"
      JNull JUndefined None busy =
    (Throw (FetchError "connect ECONNREFUSED"),
     {| Connector.self := Connector.self busy;
        Connector.wire :=
          (Connector.wire busy ++
             [call_of qs_plain (Connector.api_token (Connector.self busy))
                      "GET" "https://api.sortly.co/api/v1/items" JNull JUndefined None])%list |}).
Proof.
  apply (doFetch_transport_failure_propagates qs_plain refusing). reflexivity.
Defined.

(** A 2xx answer other than 204 is returned exactly as [response.json()]
    decodes it; when the body does not decode, the decoding error is
    thrown. *)
Theorem doFetch_success_returns_decoded_body
    qs_stringify fetch method url query payload options w r :
  fetch (call_of qs_stringify (Connector.api_token (Connector.self w))
                 method url query payload options) = Return r ->
  Connector.ok r = true -> Connector.status r <> 204 ->
  fst (Connector.doFetch qs_stringify fetch method url query payload options w) =
    match Connector.json_body r with
    | Some v => Return v
    | None => Throw (FetchError "invalid json response body")
    end.
Proof.
  intros Hnet Hok H204. rewrite doFetch_run. cbn zeta. rewrite Hnet, Hok.
  replace (Connector.status r =? 204) with false by lia.
  unfold Connector.json. destruct (Connector.json_body r); reflexivity.
Qed.

Lemma doFetch_success_returns_decoded_body_witness :
  fst (Connector.doFetch qs_plain (answering page_of_items) "GET"
         "https://api.sortly.co/api/v1/items" JNull JUndefined None idle) =
    Return (JObject [("meta", JObject [("page", JNum 1)]); ("data", JArray [widget_data])]).
Proof.
  apply (doFetch_success_returns_decoded_body qs_plain (answering page_of_items) "GET"
           "https://api.sortly.co/api/v1/items" JNull JUndefined None idle page_of_items);
    [reflexivity | reflexivity | simpl; lia].
Defined.

(** [doFetch] hands a value back only for a 2xx or a 3xx status: every
    other response ends in an exception. *)
Theorem doFetch_returns_only_for_2xx_and_3xx
    qs_stringify fetch method url query payload options w r v :
  fetch (call_of qs_stringify (Connector.api_token (Connector.self w))
                 method url query payload options) = Return r ->
  fst (Connector.doFetch qs_stringify fetch method url query payload options w) = Return v ->
  200 <= Connector.status r < 400.
Proof.
  intros Hnet. rewrite doFetch_run. cbn zeta. rewrite Hnet. unfold Connector.ok.
  destruct ((200 <=? Connector.status r) && (Connector.status r <? 300)) eqn:H2; [lia|].
  rewrite handleNotOk_run. destruct (Connector.json_body r) as [res|]; [|discriminate].
  cbn zeta.
  destruct ((300 <=? Connector.status r) && (Connector.status r <? 400)) eqn:H3; [lia|].
  repeat match goal with |- context [if ?b then _ else _] => destruct b end; discriminate.
Qed.

Lemma doFetch_returns_only_for_2xx_and_3xx_witness :
  200 <= Connector.status multiple_choices < 400.
Proof.
  apply (doFetch_returns_only_for_2xx_and_3xx qs_plain (answering multiple_choices) "GET"
           "https://api.sortly.co/api/v1/items" JNull JUndefined None idle multiple_choices
           (JObject [("choices", JArray [])])); reflexivity.
Defined.

(** A response with status 400 or more whose body decodes to a JSON value
    other than [null] becomes an [ApiAuthError] (401, 403: message is the
    body serialised again) or an [ApiError] (all others, 5xx included:
    message is the body's [message] property, empty when there is none),
    each carrying the response status. *)
Theorem doFetch_error_kinds_from_400_up
    qs_stringify fetch method url query payload options w r v :
  fetch (call_of qs_stringify (Connector.api_token (Connector.self w))
                 method url query payload options) = Return r ->
  400 <= Connector.status r ->
  Connector.json_body r = Some v -> is_nullish v = false ->
  fst (Connector.doFetch qs_stringify fetch method url query payload options w) =
    Throw (if (Connector.status r =? 401) || (Connector.status r =? 403)
           then ApiAuthError (error_message (stringify_val v)) (JNum (Connector.status r))
           else ApiError (error_message (own_prop v "message")) (JNum (Connector.status r))).
Proof.
  intros Hnet H4 Hv Hnn. rewrite doFetch_run. cbn zeta. rewrite Hnet. unfold Connector.ok.
  replace ((200 <=? Connector.status r) && (Connector.status r <? 300)) with false by lia.
  rewrite handleNotOk_run, Hv. cbn zeta. rewrite Hnn.
  replace ((300 <=? Connector.status r) && (Connector.status r <? 400)) with false by lia.
  destruct ((400 <=? Connector.status r) && (Connector.status r <? 500)) eqn:H45.
  - destruct ((Connector.status r =? 401) || (Connector.status r =? 403)); reflexivity.
  - replace (500 <=? Connector.status r) with true by lia.
    replace ((Connector.status r =? 401) || (Connector.status r =? 403)) with false by lia.
    reflexivity.
Qed.

Lemma doFetch_error_kinds_from_400_up_witness :
  fst (Connector.doFetch qs_plain (answering server_error) "GET"
         "https://api.sortly.co/api/v1/items" JNull JUndefined None idle) =
    Throw (ApiError "boom" (JNum 500))
  /\ fst (Connector.doFetch qs_plain (answering unprocessable) "POST"
            "https://api.sortly.co/api/v1/items" JNull widget_item None idle) =
       Throw (ApiError "" (JNum 422)).
Proof.
  split.
  - apply (doFetch_error_kinds_from_400_up qs_plain (answering server_error) "GET"
             "https://api.sortly.co/api/v1/items" JNull JUndefined None idle server_error
             (JObject [("message", JString "boom")]));
      [reflexivity | simpl; lia | reflexivity | reflexivity].
  - apply (doFetch_error_kinds_from_400_up qs_plain (answering unprocessable) "POST"
             "https://api.sortly.co/api/v1/items" JNull widget_item None idle unprocessable
             (JObject [("errors", JArray [JString "name taken"])]));
      [reflexivity | simpl; lia | reflexivity | reflexivity].
Defined.

(** [options.retries] changes nothing: whatever it holds, the call behaves
    as without it, and one call to [doFetch] puts exactly one request on the
    wire whatever the network answers. *)
Theorem doFetch_ignores_retries_and_sends_once
    qs_stringify fetch method url query payload supplied retries w :
  Connector.doFetch qs_stringify fetch method url query payload
      (Some {| Connector.opt_headers := supplied; Connector.opt_retries := retries |}) w =
    Connector.doFetch qs_stringify fetch method url query payload
      (Some {| Connector.opt_headers := supplied; Connector.opt_retries := JUndefined |}) w
  /\ length (Connector.wire
               (snd (Connector.doFetch qs_stringify fetch method url query payload
                       (Some {| Connector.opt_headers := supplied;
                                Connector.opt_retries := retries |}) w))) =
       S (length (Connector.wire w)).
Proof.
  split.
  - rewrite !doFetch_run. reflexivity.
  - rewrite doFetch_wire, length_app. cbn. lia.
Qed.

Lemma last_call qs_stringify fetch method url query payload options w :
  last (Connector.wire
          (snd (Connector.doFetch qs_stringify fetch method url query payload options w))) =
    Some (call_of qs_stringify (Connector.api_token (Connector.self w))
                  method url query payload options).
Proof. rewrite doFetch_wire. apply last_snoc. Qed.

(** The address [doFetch] uses is [url] itself when [query] is falsy, and
    [url], a question mark and the encoded query when [query] is truthy: the
    question mark is there for every truthy query, also one that encodes to
    nothing. *)
Theorem doFetch_address
    qs_stringify fetch method url query payload options w :
  Connector.fc_url <$>
    last (Connector.wire
            (snd (Connector.doFetch qs_stringify fetch method url query payload options w))) =
    Some (if truthy query then url +:+ "?" +:+ qs_stringify query else url).
Proof.
  rewrite last_call. cbn [fmap option_fmap option_map call_of Connector.fc_url].
  destruct (truthy query); [reflexivity|]. rewrite append_empty_r. reflexivity.
Qed.

(** A request carries a body exactly when [payload] is truthy, and the body
    is then [JSON.stringify(payload)]: a payload of [0], [""], [false] or
    [null] is not sent. *)
Theorem doFetch_body_iff_truthy_payload
    qs_stringify fetch method url query payload options w :
  exists call,
    last (Connector.wire
            (snd (Connector.doFetch qs_stringify fetch method url query payload options w))) =
      Some call
    /\ bool_decide (is_Some (Connector.fc_body call)) = truthy payload
    /\ Connector.fc_body call = if truthy payload then JSON_stringify payload else None.
Proof.
  eexists. split; [apply last_call|]. cbn [call_of Connector.fc_body].
  split; [|reflexivity]. destruct (truthy payload) eqn:Ht.
  - apply bool_decide_eq_true. now apply stringify_truthy.
  - apply bool_decide_eq_false. intros [x Hx]. discriminate.
Qed.

(** With [options.headers] supplied, every header of the request is the
    caller's value when the caller named it and the default otherwise, in
    both [SortlyConnector] versions. *)
Theorem doFetch_header_by_header
    qs_stringify fetch method url query payload supplied retries k :
  (forall w,
      exists call,
        last (Connector.wire
                (snd (Connector.doFetch qs_stringify fetch method url query payload
                        (Some {| Connector.opt_headers := Some supplied;
                                 Connector.opt_retries := retries |}) w))) = Some call
        /\ Connector.fc_headers call !! k =
             match supplied !! k with
             | Some v => Some v
             | None => Connector.default_headers (Connector.api_token (Connector.self w)) !! k
             end)
  /\ (forall w,
        exists call,
          last (Connector0.wire
                  (snd (Connector0.doFetch qs_stringify fetch method url query payload
                          (Some {| Connector.opt_headers := Some supplied;
                                   Connector.opt_retries := retries |}) w))) = Some call
          /\ Connector.fc_headers call !! k =
               match supplied !! k with
               | Some v => Some v
               | None =>
                   Connector.default_headers (Connector0.api_token (Connector0.self w)) !! k
               end).
Proof.
  split; intros w; eexists.
  - split; [apply last_call|]. cbn [call_of Connector.fc_headers]. unfold Object_assign.
    rewrite lookup_union.
    destruct (supplied !! k); destruct (Connector.default_headers _ !! k); reflexivity.
  - split.
    + rewrite doFetch0_run. cbn zeta.
      match goal with |- context [fetch ?c] => destruct (fetch c) as [r|e] end.
      * destruct (Connector.ok r).
        -- unfold Connector0.json. destruct (Connector.json_body r); apply last_snoc.
        -- rewrite handleNotOk0_run. destruct (Connector.json_body r); [|apply last_snoc].
           cbn zeta.
           repeat match goal with |- context [if ?b then _ else _] => destruct b end;
             apply last_snoc.
      * apply last_snoc.
    + cbn [call_of Connector.fc_headers]. unfold Object_assign.
      rewrite lookup_union.
      destruct (supplied !! k); destruct (Connector.default_headers _ !! k); reflexivity.
Qed.

(** ** The endpoint operations of [SortlyConnector] *)

Lemma try_catch_world {S A} (c : M S A) (h : Exn -> M S A) w :
  (forall e w', snd (h e w') = w') -> snd (try_catch c h w) = snd (c w).
Proof. intros Hh. unfold try_catch. destruct (c w) as [[a|e] w']; [reflexivity|apply Hh]. Qed.

Section OperationWorlds.

Variable qs_stringify : JsVal -> string.
Variable fetch : Connector.FetchCall -> Completion Connector.Response.

(** What one operation can do to the world: nothing, or one request, or
    one request and the record of its rate-limit headers. *)
Lemma perform_world op w :
  snd (perform qs_stringify fetch op w) = w
  \/ (exists call, snd (perform qs_stringify fetch op w) = sent w call)
  \/ (exists call r, snd (perform qs_stringify fetch op w) = recorded r (sent w call)).
Proof.
  assert (Hd : forall method url query payload options,
             (exists call,
                 snd (Connector.doFetch qs_stringify fetch method url query payload options w)
                 = sent w call)
             \/ (exists call r,
                    snd (Connector.doFetch qs_stringify fetch method url query payload options w)
                    = recorded r (sent w call))).
  { intros. rewrite doFetch_world. cbn zeta. destruct (fetch _) as [r|e]; eauto. }
  destruct op; cbn [perform].
  - unfold Connector.createItem. destruct (negb (truthy item)); [left; reflexivity|].
    destruct (negb (truthy (own_prop item "name"))); [left; reflexivity|].
    right. rewrite bind_get_state, bind_ret_world. apply Hd.
  - unfold Connector.deleteItem. destruct (negb (truthy id)); [left; reflexivity|].
    right. rewrite bind_get_state.
    change (snd ((x <- ?c ;; ret JUndefined) w)) with (snd ((x <- c ;; ret ((fun _ => JUndefined) x)) w)).
    rewrite bind_ret_world. apply Hd.
  - unfold Connector.fetchItem. destruct (negb (truthy id)); [left; reflexivity|].
    right. rewrite try_catch_world.
    + rewrite bind_get_state, bind_ret_world. apply Hd.
    + intros e w'. destruct (_ && _); reflexivity.
  - unfold Connector.moveItem. destruct (negb (truthy item_id)); [left; reflexivity|].
    destruct (is_nullish quantity); [left; reflexivity|].
    right. rewrite bind_get_state, bind_ret_world. apply Hd.
  - unfold Connector.searchItems. right. rewrite bind_get_state. apply Hd.
  - unfold Connector.updateItem. destruct (negb (truthy item)); [left; reflexivity|].
    destruct (negb (truthy (own_prop item "id"))); [left; reflexivity|].
    right. rewrite bind_get_state.
    change (snd ((x <- ?c ;; ret JUndefined) w)) with (snd ((x <- c ;; ret ((fun _ => JUndefined) x)) w)).
    rewrite bind_ret_world. apply Hd.
  - unfold Connector.listCustomAttributes. right. cbn zeta. rewrite bind_get_state. apply Hd.
Qed.

End OperationWorlds.

(** Whatever calls a program makes, in whatever order and with whatever
    outcome, the connector keeps its [base_url] and [api_token], the requests
    already on the wire stay there, and at most one request is added per
    call. *)
Theorem session_keeps_configuration_and_history qs_stringify fetch ops w :
  let w' := session qs_stringify fetch ops w in
  Connector.base_url (Connector.self w') = Connector.base_url (Connector.self w)
  /\ Connector.api_token (Connector.self w') = Connector.api_token (Connector.self w)
  /\ exists added,
       Connector.wire w' = (Connector.wire w ++ added)%list
       /\ (length added <= length ops)%nat.
Proof.
  cbn zeta. revert w. induction ops as [|op ops IH]; intros w.
  - cbn. repeat split. exists []. rewrite app_nil_r. split; [reflexivity | cbn; lia].
  - cbn [session fold_left].
    change (fold_left _ ops ?x) with (session qs_stringify fetch ops x).
    destruct (IH (snd (perform qs_stringify fetch op w))) as (Hb & Ht & added & Hw & Hlen).
    rewrite Hb, Ht, Hw.
    destruct (perform_world qs_stringify fetch op w) as [-> | [(call & ->) | (call & r & ->)]].
    + repeat split. exists added. split; [reflexivity | cbn; lia].
    + repeat split. exists (call :: added). cbn [sent Connector.wire].
      rewrite <- app_assoc. split; [reflexivity | cbn; lia].
    + repeat split. exists (call :: added).
      cbn [recorded Connector.set_rate_limits sent Connector.wire Connector.self].
      rewrite <- app_assoc. split; [reflexivity | cbn; lia].
Qed.

(** [deleteItem] and [fetchItem] without an id (absent, [null], [0] or the
    empty string) throw an [ApiError] without a status; nothing is sent and
    nothing changes. *)
Theorem deleteItem_fetchItem_need_an_id qs_stringify fetch id include w :
  truthy id = false ->
  (exists msg,
      Connector.deleteItem qs_stringify fetch id w = (Throw (ApiError msg JUndefined), w))
  /\ (exists msg,
        Connector.fetchItem qs_stringify fetch id include w =
          (Throw (ApiError msg JUndefined), w)).
Proof.
  intros Hid. unfold Connector.deleteItem, Connector.fetchItem. rewrite Hid. cbn [negb].
  split; eexists; reflexivity.
Qed.

Lemma deleteItem_fetchItem_need_an_id_witness :
  (exists msg,
      Connector.deleteItem qs_plain (answering not_found_json) (JNum 0) idle =
        (Throw (ApiError msg JUndefined), idle))
  /\ (exists msg,
        Connector.fetchItem qs_plain (answering not_found_json) (JNum 0)
          (JString "photos") idle = (Throw (ApiError msg JUndefined), idle)).
Proof.
  apply (deleteItem_fetchItem_need_an_id qs_plain (answering not_found_json)). reflexivity.
Defined.

Lemma unwrap_data_spec v :
  Connector.unwrap_data v =
    if truthy (own_prop v "data") then own_prop v "data" else JNull.
Proof.
  unfold Connector.unwrap_data. destruct (truthy (own_prop v "data")) eqn:Hd.
  - rewrite (truthy_prop_object _ _ Hd). reflexivity.
  - cbn. rewrite orb_true_r. reflexivity.
Qed.

Section OperationValues.

Variable qs_stringify : JsVal -> string.
Variable fetch : Connector.FetchCall -> Completion Connector.Response.
Variable r : Connector.Response.
Hypothesis Hnet : forall call, fetch call = Return r.

Lemma doFetch_answered method url query payload options w :
  fst (Connector.doFetch qs_stringify fetch method url query payload options w) =
    if Connector.ok r then
      if Connector.status r =? 204 then Return (JObject [])
      else fst (Connector.json r w)
    else fst (Connector.handleNotOk r w).
Proof.
  rewrite doFetch_run. cbn zeta. rewrite Hnet.
  destruct (Connector.ok r).
  - destruct (Connector.status r =? 204); [reflexivity|].
    unfold Connector.json. destruct (Connector.json_body r); reflexivity.
  - rewrite !handleNotOk_run. destruct (Connector.json_body r); [|reflexivity]. cbn zeta.
    repeat match goal with |- context [if ?b then _ else _] => destruct b end; reflexivity.
Qed.

Lemma doFetch_decoded method url query payload options w v :
  Connector.ok r = true -> Connector.status r <> 204 -> Connector.json_body r = Some v ->
  fst (Connector.doFetch qs_stringify fetch method url query payload options w) = Return v.
Proof.
  intros Hok H204 Hv. rewrite doFetch_answered, Hok.
  replace (Connector.status r =? 204) with false by lia.
  unfold Connector.json. rewrite Hv. reflexivity.
Qed.

Lemma doFetch_succeeds method url query payload options w :
  Connector.ok r = true ->
  Connector.status r = 204 \/ is_Some (Connector.json_body r) ->
  exists v,
    fst (Connector.doFetch qs_stringify fetch method url query payload options w) = Return v.
Proof.
  intros Hok Hb. rewrite doFetch_answered, Hok.
  destruct (Connector.status r =? 204) eqn:E; [eauto|].
  destruct Hb as [Hb|[v Hv]]; [lia|]. unfold Connector.json. rewrite Hv. eauto.
Qed.

End OperationValues.

(** After a successful answer (a 204, or a 2xx whose body decodes)
    [deleteItem] and [updateItem] return [undefined], whatever the body
    says. *)
Theorem deleteItem_updateItem_return_nothing qs_stringify fetch r w :
  (forall call, fetch call = Return r) ->
  Connector.ok r = true ->
  Connector.status r = 204 \/ is_Some (Connector.json_body r) ->
  (forall id, truthy id = true ->
     fst (Connector.deleteItem qs_stringify fetch id w) = Return JUndefined)
  /\ (forall item, truthy (own_prop item "id") = true ->
        fst (Connector.updateItem qs_stringify fetch item w) = Return JUndefined).
Proof.
  intros Hnet Hok Hb. split.
  - intros id Hid. unfold Connector.deleteItem. rewrite Hid. cbn [negb].
    rewrite bind_get_state. unfold bind.
    match goal with |- context [Connector.doFetch ?q ?f ?m ?u ?qy ?p ?o w] =>
      destruct (doFetch_succeeds q f r Hnet m u qy p o w Hok Hb) as [v Hv];
      destruct (Connector.doFetch q f m u qy p o w) as [c w'] end.
    cbn [fst] in Hv. subst c. reflexivity.
  - intros item Hid. unfold Connector.updateItem.
    rewrite (truthy_prop_object _ _ Hid), Hid. cbn [negb]. rewrite bind_get_state. unfold bind.
    match goal with |- context [Connector.doFetch ?q ?f ?m ?u ?qy ?p ?o w] =>
      destruct (doFetch_succeeds q f r Hnet m u qy p o w Hok Hb) as [v Hv];
      destruct (Connector.doFetch q f m u qy p o w) as [c w'] end.
    cbn [fst] in Hv. subst c. reflexivity.
Qed.

Lemma deleteItem_updateItem_return_nothing_witness :
  fst (Connector.deleteItem qs_plain (answering created) (JNum 42) idle) = Return JUndefined
  /\ fst (Connector.updateItem qs_plain (answering created) widget_data idle) =
       Return JUndefined.
Proof.
  destruct (deleteItem_updateItem_return_nothing qs_plain (answering created) created idle)
    as [Hd Hu];
    [reflexivity | reflexivity | right; eexists; reflexivity |].
  split; [apply Hd | apply Hu]; reflexivity.
Defined.

(** After a 2xx answer other than 204 whose body decodes to [v],
    [createItem], [fetchItem] and [moveItem] return [v.data] when that is
    truthy and [null] in every other case, so also when [data] is [0],
    [false], the empty string or [null]. *)
Theorem data_is_unwrapped_when_truthy qs_stringify fetch r v w :
  (forall call, fetch call = Return r) ->
  Connector.ok r = true -> Connector.status r <> 204 ->
  Connector.json_body r = Some v ->
  let data := if truthy (own_prop v "data") then own_prop v "data" else JNull in
  (forall item, truthy (own_prop item "name") = true ->
     fst (Connector.createItem qs_stringify fetch item w) = Return data)
  /\ (forall id include, truthy id = true ->
        fst (Connector.fetchItem qs_stringify fetch id include w) = Return data)
  /\ (forall item_id quantity folder_id leave_zero_quantity,
        truthy item_id = true -> is_nullish quantity = false ->
        fst (Connector.moveItem qs_stringify fetch item_id quantity folder_id
               leave_zero_quantity w) = Return data).
Proof.
  intros Hnet Hok H204 Hv data. subst data. rewrite <- unwrap_data_spec.
  split; [|split].
  - intros item Hname. unfold Connector.createItem.
    rewrite (truthy_prop_object _ _ Hname), Hname. cbn [negb].
    rewrite bind_get_state, bind_ret_value.
    rewrite (doFetch_decoded _ _ r Hnet _ _ _ _ _ _ v Hok H204 Hv). reflexivity.
  - intros id include Hid. unfold Connector.fetchItem. rewrite Hid. cbn [negb].
    unfold try_catch. rewrite bind_get_state.
    pose proof (bind_ret_value
                  (Connector.doFetch qs_stringify fetch "GET"
                     (Connector.base_url (Connector.self w) +:+ "/items/" +:+ ToString id)
                     (if truthy include then JObject [("include", include)] else JNull)
                     JUndefined None) Connector.unwrap_data w) as Hval.
    rewrite (doFetch_decoded _ _ r Hnet _ _ _ _ _ _ v Hok H204 Hv) in Hval.
    destruct ((result <- Connector.doFetch qs_stringify fetch "GET"
                  (Connector.base_url (Connector.self w) +:+ "/items/" +:+ ToString id)
                  (if truthy include then JObject [("include", include)] else JNull)
                  JUndefined None ;; ret (Connector.unwrap_data result)) w) as [c w'].
    cbn [fst] in Hval. subst c. reflexivity.
  - intros item_id quantity folder_id lzq Hid Hq. unfold Connector.moveItem.
    rewrite Hid, Hq. cbn [negb]. rewrite bind_get_state, bind_ret_value.
    rewrite (doFetch_decoded _ _ r Hnet _ _ _ _ _ _ v Hok H204 Hv). reflexivity.
Qed.

Lemma data_is_unwrapped_when_truthy_witness :
  (fst (Connector.createItem qs_plain (answering created) widget_item idle) =
     Return widget_data
   /\ fst (Connector.fetchItem qs_plain (answering created) (JNum 42) JUndefined idle) =
        Return widget_data)
  /\ fst (Connector.fetchItem qs_plain (answering zero_data) (JNum 42) JUndefined idle) =
       Return JNull.
Proof.
  split.
  - destruct (data_is_unwrapped_when_truthy qs_plain (answering created) created
                widget_envelope idle) as (Hc & Hf & _);
      [reflexivity | reflexivity | simpl; lia | reflexivity |].
    split; [apply Hc | apply Hf]; reflexivity.
  - destruct (data_is_unwrapped_when_truthy qs_plain (answering zero_data) zero_data
                (JObject [("data", JNum 0)]) idle) as (_ & Hf & _);
      [reflexivity | reflexivity | simpl; lia | reflexivity |].
    apply Hf. reflexivity.
Defined.

(** [fetchItem] turns nothing but a status-404 [ApiError] into [null]: an
    answer with another status from 400 up is thrown to the caller as
    [doFetch] classified it, and so is a failure of the network. *)
Theorem fetchItem_rethrows_all_but_404 qs_stringify fetch id include w :
  truthy id = true ->
  (forall r v,
      (forall call, fetch call = Return r) ->
      400 <= Connector.status r -> Connector.status r <> 404 ->
      Connector.json_body r = Some v -> is_nullish v = false ->
      fst (Connector.fetchItem qs_stringify fetch id include w) =
        Throw (if (Connector.status r =? 401) || (Connector.status r =? 403)
               then ApiAuthError (error_message (stringify_val v)) (JNum (Connector.status r))
               else ApiError (error_message (own_prop v "message"))
                             (JNum (Connector.status r))))
  /\ (forall e,
        (forall call, fetch call = Throw e) ->
        instanceof_ApiError e && strict_eq_num (exn_status e) 404 = false ->
        fst (Connector.fetchItem qs_stringify fetch id include w) = Throw e).
Proof.
  intros Hid. split.
  - intros r v Hnet H4 H404 Hv Hnn. unfold Connector.fetchItem. rewrite Hid. cbn [negb].
    unfold try_catch. rewrite bind_get_state.
    pose proof (bind_ret_value
                  (Connector.doFetch qs_stringify fetch "GET"
                     (Connector.base_url (Connector.self w) +:+ "/items/" +:+ ToString id)
                     (if truthy include then JObject [("include", include)] else JNull)
                     JUndefined None) Connector.unwrap_data w) as Hval.
    rewrite (doFetch_answered _ _ r Hnet) in Hval.
    unfold Connector.ok in Hval.
    replace ((200 <=? Connector.status r) && (Connector.status r <? 300))
      with false in Hval by lia.
    rewrite handleNotOk_run, Hv in Hval. cbn zeta in Hval. rewrite Hnn in Hval.
    replace ((300 <=? Connector.status r) && (Connector.status r <? 400))
      with false in Hval by lia.
    destruct ((result <- Connector.doFetch qs_stringify fetch "GET"
                  (Connector.base_url (Connector.self w) +:+ "/items/" +:+ ToString id)
                  (if truthy include then JObject [("include", include)] else JNull)
                  JUndefined None ;; ret (Connector.unwrap_data result)) w) as [c w'].
    cbn [fst] in Hval. subst c.
    destruct ((400 <=? Connector.status r) && (Connector.status r <? 500)) eqn:H45.
    + destruct ((Connector.status r =? 401) || (Connector.status r =? 403)); cbn;
        replace (Connector.status r =? 404) with false by lia; reflexivity.
    + replace (500 <=? Connector.status r) with true by lia.
      replace ((Connector.status r =? 401) || (Connector.status r =? 403)) with false by lia.
      cbn. replace (Connector.status r =? 404) with false by lia. reflexivity.
  - intros e Hnet He. unfold Connector.fetchItem. rewrite Hid. cbn [negb].
    unfold try_catch. rewrite bind_get_state. unfold bind.
    rewrite doFetch_run. cbn zeta. rewrite Hnet, He. reflexivity.
Qed.

Lemma fetchItem_rethrows_all_but_404_witness :
  fst (Connector.fetchItem qs_plain (answering server_error) (JNum 999) JUndefined idle) =
    Throw (ApiError "boom" (JNum 500))
  /\ fst (Connector.fetchItem qs_plain refusing (JNum 999) JUndefined idle) =
       Throw (FetchError "connect ECONNREFUSED").
Proof.
  destruct (fetchItem_rethrows_all_but_404 qs_plain (answering server_error)
              (JNum 999) JUndefined idle) as [Hr _]; [reflexivity|].
  destruct (fetchItem_rethrows_all_but_404 qs_plain refusing
              (JNum 999) JUndefined idle) as [_ He]; [reflexivity|].
  split.
  - apply (Hr server_error (JObject [("message", JString "boom")]));
      [reflexivity | simpl; lia | simpl; lia | reflexivity | reflexivity].
  - apply He; reflexivity.
Defined.

(** [listCustomAttributes] sends one query parameter at most: [page] when
    it is truthy, whatever [per_page] is, else [per_page] when that is
    truthy, else no query at all. *)
Theorem listCustomAttributes_page_replaces_per_page qs_stringify fetch per_page page w :
  Connector.fc_url <$>
    last (Connector.wire
            (snd (Connector.listCustomAttributes qs_stringify fetch per_page page w))) =
    Some (Connector.base_url (Connector.self w) +:+ "/custom_fields" +:+
          (if truthy page then "?" +:+ qs_stringify (JObject [("page", page)])
           else if truthy per_page then "?" +:+ qs_stringify (JObject [("per_page", per_page)])
           else "")).
Proof.
  unfold Connector.listCustomAttributes. cbn zeta. rewrite bind_get_state, last_call.
  cbn [fmap option_fmap option_map call_of Connector.fc_url].
  rewrite append_assoc_r.
  destruct (truthy page); [reflexivity|]. destruct (truthy per_page); reflexivity.
Qed.

(** [searchItems] and [listCustomAttributes] return the decoded answer as a
    whole, [meta] and [data] together: nothing is unwrapped. *)
Theorem listings_return_the_whole_envelope qs_stringify fetch r v w :
  (forall call, fetch call = Return r) ->
  Connector.ok r = true -> Connector.status r <> 204 ->
  Connector.json_body r = Some v ->
  (forall search, fst (Connector.searchItems qs_stringify fetch search w) = Return v)
  /\ (forall per_page page,
        fst (Connector.listCustomAttributes qs_stringify fetch per_page page w) = Return v).
Proof.
  intros Hnet Hok H204 Hv. split.
  - intros search. unfold Connector.searchItems. rewrite bind_get_state.
    now apply doFetch_decoded with (r := r).
  - intros per_page page. unfold Connector.listCustomAttributes. cbn zeta.
    rewrite bind_get_state. now apply doFetch_decoded with (r := r).
Qed.

Lemma listings_return_the_whole_envelope_witness :
  fst (Connector.searchItems qs_plain (answering page_of_items) widget_item idle) =
    Return (JObject [("meta", JObject [("page", JNum 1)]); ("data", JArray [widget_data])])
  /\ fst (Connector.listCustomAttributes qs_plain (answering page_of_items)
            (JNum 10) (JNum 2) idle) =
       Return (JObject [("meta", JObject [("page", JNum 1)]); ("data", JArray [widget_data])]).
Proof.
  destruct (listings_return_the_whole_envelope qs_plain (answering page_of_items)
              page_of_items
              (JObject [("meta", JObject [("page", JNum 1)]); ("data", JArray [widget_data])])
              idle) as [Hs Hl];
    [reflexivity | reflexivity | simpl; lia | reflexivity |].
  split; [apply Hs | apply Hl].
Defined.

Lemma then_ret_wire {A} (c : M Connector.World JsVal) (f : JsVal -> A) w :
  Connector.wire (snd ((x <- c ;; ret (f x)) w)) = Connector.wire (snd (c w)).
Proof. rewrite bind_ret_world. reflexivity. Qed.

(** The request behind each operation, for arguments that pass the local
    checks: method, address, query and payload as [doFetch] receives them,
    always with the default headers. *)
Theorem endpoint_table qs_stringify fetch w :
  let base := Connector.base_url (Connector.self w) in
  let goes_out (run : M Connector.World JsVal) method url query payload :=
    Connector.wire (snd (run w)) =
      (Connector.wire w ++
         [call_of qs_stringify (Connector.api_token (Connector.self w))
                  method url query payload None])%list in
  (forall item, truthy (own_prop item "name") = true ->
     goes_out (Connector.createItem qs_stringify fetch item)
              "POST" (base +:+ "/items") JNull item)
  /\ (forall id, truthy id = true ->
        goes_out (Connector.deleteItem qs_stringify fetch id)
                 "DELETE" (base +:+ "/items/" +:+ ToString id) JUndefined JUndefined)
  /\ (forall id include, truthy id = true ->
        goes_out (Connector.fetchItem qs_stringify fetch id include)
                 "GET" (base +:+ "/items/" +:+ ToString id)
                 (if truthy include then JObject [("include", include)] else JNull)
                 JUndefined)
  /\ (forall item_id quantity folder_id leave_zero_quantity,
        truthy item_id = true -> is_nullish quantity = false ->
        goes_out (Connector.moveItem qs_stringify fetch item_id quantity folder_id
                                     leave_zero_quantity)
                 "POST" (base +:+ "/items/" +:+ ToString item_id +:+ "/move") JNull
                 (JObject
                    ([("quantity", quantity)]
                     ++ (if truthy folder_id then [("folder_id", folder_id)] else [])
                     ++ (if is_nullish leave_zero_quantity then []
                         else [("leave_zero_quantity", leave_zero_quantity)]))%list))
  /\ (forall search,
        goes_out (Connector.searchItems qs_stringify fetch search)
                 "POST" (base +:+ "/items/search") JNull search)
  /\ (forall item, truthy (own_prop item "id") = true ->
        goes_out (Connector.updateItem qs_stringify fetch item)
                 "PUT" (base +:+ "/items/" +:+ ToString (own_prop item "id")) JNull item).
Proof.
  cbn zeta. repeat apply conj.
  - intros item Hname. unfold Connector.createItem.
    rewrite (truthy_prop_object _ _ Hname), Hname. cbn [negb].
    rewrite bind_get_state, then_ret_wire. apply doFetch_wire.
  - intros id Hid. unfold Connector.deleteItem. rewrite Hid. cbn [negb].
    rewrite bind_get_state.
    change (snd ((x <- ?c ;; ret JUndefined) w))
      with (snd ((x <- c ;; ret ((fun _ => JUndefined) x)) w)).
    rewrite then_ret_wire. apply doFetch_wire.
  - intros id include Hid. unfold Connector.fetchItem. rewrite Hid. cbn [negb].
    rewrite try_catch_world.
    + rewrite bind_get_state, then_ret_wire. apply doFetch_wire.
    + intros e w'. destruct (_ && _); reflexivity.
  - intros item_id quantity folder_id lzq Hid Hq. unfold Connector.moveItem.
    rewrite Hid, Hq. cbn [negb]. rewrite bind_get_state, then_ret_wire, doFetch_wire.
    destruct (is_nullish lzq); reflexivity.
  - intros search. unfold Connector.searchItems. rewrite bind_get_state. apply doFetch_wire.
  - intros item Hid. unfold Connector.updateItem.
    rewrite (truthy_prop_object _ _ Hid), Hid. cbn [negb]. rewrite bind_get_state.
    change (snd ((x <- ?c ;; ret JUndefined) w))
      with (snd ((x <- c ;; ret ((fun _ => JUndefined) x)) w)).
    rewrite then_ret_wire. apply doFetch_wire.
Qed.

Lemma endpoint_table_witness :
  Connector.wire (snd (Connector.createItem qs_plain (answering created) widget_item idle)) =
    [call_of qs_plain "s3cr3t" "POST" "https://api.sortly.co/api/v1/items"
             JNull widget_item None]
  /\ Connector.wire (snd (Connector.deleteItem qs_plain (answering no_content)
                            (JNum 42) idle)) =
       [call_of qs_plain "s3cr3t" "DELETE" "https://api.sortly.co/api/v1/items/42"
                JUndefined JUndefined None]
  /\ Connector.wire (snd (Connector.moveItem qs_plain (answering created)
                            (JNum 5) (JNum 2) (JNum 0) (JBool false) idle)) =
       [call_of qs_plain "s3cr3t" "POST" "https://api.sortly.co/api/v1/items/5/move" JNull
                (JObject [("quantity", JNum 2); ("leave_zero_quantity", JBool false)]) None].
Proof.
  split; [|split].
  - destruct (endpoint_table qs_plain (answering created) idle) as (Hc & _).
    apply (Hc widget_item). reflexivity.
  - destruct (endpoint_table qs_plain (answering no_content) idle) as (_ & Hd & _).
    apply (Hd (JNum 42)). reflexivity.
  - destruct (endpoint_table qs_plain (answering created) idle) as (_ & _ & _ & Hm & _).
    apply (Hm (JNum 5) (JNum 2) (JNum 0) (JBool false)); reflexivity.
Defined.

(** ** The first [SortlyConnector] *)

(** In the first [SortlyConnector] only 401 and 403 are thrown (as an
    [ApiAuthError] without a status): any other answer with status 400 or
    more, 5xx included, whose body decodes is returned to the caller as if
    it were a result. *)
Theorem first_connector_returns_error_bodies
    qs_stringify fetch method url query payload options w r v :
  fetch (call_of qs_stringify (Connector0.api_token (Connector0.self w))
                 method url query payload options) = Return r ->
  400 <= Connector.status r ->
  Connector.json_body r = Some v ->
  fst (Connector0.doFetch qs_stringify fetch method url query payload options w) =
    if (Connector.status r =? 401) || (Connector.status r =? 403)
    then Throw (ApiAuthError (error_message (stringify_val v)) JUndefined)
    else Return v.
Proof.
  intros Hnet H4 Hv. rewrite doFetch0_run. cbn zeta. rewrite Hnet. unfold Connector.ok.
  replace ((200 <=? Connector.status r) && (Connector.status r <? 300)) with false by lia.
  rewrite handleNotOk0_run, Hv. cbn zeta.
  replace ((300 <=? Connector.status r) && (Connector.status r <? 400)) with false by lia.
  destruct ((400 <=? Connector.status r) && (Connector.status r <? 500)) eqn:H45.
  - destruct ((Connector.status r =? 401) || (Connector.status r =? 403)); reflexivity.
  - replace (500 <=? Connector.status r) with true by lia.
    replace ((Connector.status r =? 401) || (Connector.status r =? 403)) with false by lia.
    reflexivity.
Qed.

Lemma first_connector_returns_error_bodies_witness :
  fst (Connector0.doFetch qs_plain (answering server_error) "POST"
         "https://api.sortly.co/api/v1/items/search" JNull widget_item None acme0) =
    Return (JObject [("message", JString "boom")]).
Proof.
  apply (first_connector_returns_error_bodies qs_plain (answering server_error) "POST"
           "https://api.sortly.co/api/v1/items/search" JNull widget_item None acme0
           server_error (JObject [("message", JString "boom")]));
    [reflexivity | simpl; lia | reflexivity].
Defined.

(** The first [SortlyConnector] decodes the body of every 2xx answer, 204
    included: the decoded value is returned, and an answer whose body does
    not decode (an empty 204, say) ends in the decoding error. *)
Theorem first_connector_decodes_every_2xx
    qs_stringify fetch method url query payload options w r :
  fetch (call_of qs_stringify (Connector0.api_token (Connector0.self w))
                 method url query payload options) = Return r ->
  Connector.ok r = true ->
  fst (Connector0.doFetch qs_stringify fetch method url query payload options w) =
    match Connector.json_body r with
    | Some v => Return v
    | None => Throw (FetchError "invalid json response body")
    end.
Proof.
  intros Hnet Hok. rewrite doFetch0_run. cbn zeta. rewrite Hnet, Hok.
  unfold Connector0.json. destruct (Connector.json_body r); reflexivity.
Qed.

Lemma first_connector_decodes_every_2xx_witness :
  fst (Connector0.doFetch qs_plain (answering no_content) "DELETE"
         "https://api.sortly.co/api/v1/items/7" JUndefined JUndefined None acme0) =
    Throw (FetchError "invalid json response body").
Proof.
  apply (first_connector_decodes_every_2xx qs_plain (answering no_content) "DELETE"
           "https://api.sortly.co/api/v1/items/7" JUndefined JUndefined None acme0 no_content);
    reflexivity.
Defined.

(** ** The [Sortly] class, 1.1.5 *)

Lemma exchange_failed http req reqbody w cause :
  http req = Legacy.Failed cause ->
  exchange http req reqbody w =
    (Throw (TypeError "Cannot read property 'headers' of undefined"), sent_req w req).
Proof.
  intros Hnet. unfold exchange, try_catch, bind, Legacy.baseRequest. rewrite Hnet.
  reflexivity.
Qed.

Lemma exchange_wire http req reqbody w :
  Legacy.wire (snd (exchange http req reqbody w)) = (Legacy.wire w ++ [req])%list.
Proof.
  destruct (http req) as [r|cause] eqn:Hnet.
  - rewrite (exchange_world http _ _ _ r Hnet).
    destruct ((200 <=? im_statusCode r) && (im_statusCode r <? 300)); reflexivity.
  - rewrite (exchange_failed http _ _ _ cause Hnet). reflexivity.
Qed.

Lemma verbs_request qs_stringify http verb run :
  In (verb, run) (verbs qs_stringify http) ->
  forall uri entity opts,
    run uri entity opts =
      exchange http
        {| Legacy.method := verb;
           Legacy.uri := Legacy.path_of qs_stringify uri opts;
           Legacy.body := if String.eqb verb "POST" || String.eqb verb "PUT"
                          then entity else JUndefined |}
        (if String.eqb verb "POST" || String.eqb verb "PUT" then entity else JNull).
Proof.
  intros Hin uri entity opts. unfold verbs in Hin. cbn [In] in Hin.
  destruct Hin as [H|[H|[H|[H|[]]]]]; inversion H; subst; reflexivity.
Qed.

(** When the network gives no response, every verb of the 1.1.5 class
    throws a [TypeError] (it reads [headers] of the missing [response]): the
    cause reported by the transport is lost, and the counters keep their
    values. *)
Theorem legacy_transport_failure_is_a_TypeError
    qs_stringify http verb run uri entity opts w :
  (forall req, exists cause, http req = Legacy.Failed cause) ->
  In (verb, run) (verbs qs_stringify http) ->
  fst (run uri entity opts w) =
    Throw (TypeError "Cannot read property 'headers' of undefined")
  /\ Legacy.self (snd (run uri entity opts w)) = Legacy.self w.
Proof.
  intros Hnet Hin. rewrite (verbs_request _ _ _ _ Hin).
  match goal with |- context [exchange http ?req ?rb w] =>
    destruct (Hnet req) as [cause Hc]; rewrite (exchange_failed http req rb w cause Hc) end.
  split; reflexivity.
Qed.

Lemma legacy_transport_failure_is_a_TypeError_witness :
  fst (Legacy.put qs_plain unreachable "/items/7" widget_item JUndefined fresh) =
    Throw (TypeError "Cannot read property 'headers' of undefined")
  /\ Legacy.self (snd (Legacy.put qs_plain unreachable "/items/7" widget_item
                         JUndefined fresh)) = Legacy.self fresh.
Proof.
  apply (legacy_transport_failure_is_a_TypeError qs_plain unreachable "PUT"
           (fun uri entity opts => Legacy.put qs_plain unreachable uri entity opts)
           "/items/7" widget_item JUndefined fresh).
  - intros req. eexists. reflexivity.
  - simpl. tauto.
Defined.

(** A 2xx answer other than 204 makes every verb return the body of the
    response as it is. *)
Theorem legacy_success_returns_the_body
    qs_stringify http r verb run uri entity opts w :
  (forall req, http req = Legacy.Answered r) ->
  200 <= im_statusCode r < 300 -> im_statusCode r <> 204 ->
  In (verb, run) (verbs qs_stringify http) ->
  fst (run uri entity opts w) = Return (im_body r).
Proof.
  intros Hnet H2 H204 Hin. rewrite (verbs_request _ _ _ _ Hin).
  rewrite (exchange_2xx http _ _ _ r (Hnet _)) by lia.
  replace (im_statusCode r =? 204) with false by lia. reflexivity.
Qed.

Lemma legacy_success_returns_the_body_witness :
  fst (Legacy.get qs_plain (replying (legacy_reply 200 quota_headers))
         "/items" JUndefined fresh) = Return (JObject [("message", JString "n/a")]).
Proof.
  apply (legacy_success_returns_the_body qs_plain (replying (legacy_reply 200 quota_headers))
           (legacy_reply 200 quota_headers) "GET"
           (fun uri _ opts => Legacy.get qs_plain
                                (replying (legacy_reply 200 quota_headers)) uri opts)
           "/items" JUndefined JUndefined fresh);
    [reflexivity | simpl; lia | simpl; lia | simpl; tauto].
Defined.

(** Outside 2xx the 1.1.5 class returns a value in one case only, a 404
    answer to a GET, and the value is [null]; every other answer ends in an
    exception. *)
Theorem legacy_returns_only_for_2xx_and_404_on_GET
    qs_stringify http r verb run uri entity opts w v :
  (forall req, http req = Legacy.Answered r) ->
  In (verb, run) (verbs qs_stringify http) ->
  fst (run uri entity opts w) = Return v ->
  200 <= im_statusCode r < 300
  \/ (im_statusCode r = 404 /\ verb = "GET" /\ v = JNull).
Proof.
  intros Hnet Hin. rewrite (verbs_request _ _ _ _ Hin).
  destruct ((200 <=? im_statusCode r) && (im_statusCode r <? 300)) eqn:H2; [lia|].
  rewrite (exchange_rejected http _ _ _ r (Hnet _) H2).
  unfold Legacy.handleResponse, Legacy.of_exn.
  cbn [Legacy.statusCode Legacy.response Legacy.sc_ge Legacy.sc_lt Legacy.sc_is
       Legacy.method].
  rewrite H2. unfold bind, modify. cbn zeta.
  destruct ((400 <=? im_statusCode r) && (im_statusCode r <? 500)).
  - destruct (im_statusCode r =? 400); [discriminate|].
    destruct (im_statusCode r =? 401); [discriminate|].
    destruct (im_statusCode r =? 404) eqn:H404.
    + destruct (String.eqb verb "GET") eqn:Hg; [|discriminate].
      intros Hret. right. apply String.eqb_eq in Hg. inversion Hret. split; [lia|]. tauto.
    + destruct (im_statusCode r =? 429); discriminate.
  - destruct (500 <=? im_statusCode r); discriminate.
Qed.

Lemma legacy_returns_only_for_2xx_and_404_on_GET_witness :
  200 <= im_statusCode (legacy_reply 404 quota_headers) < 300
  \/ (im_statusCode (legacy_reply 404 quota_headers) = 404 /\ "GET" = "GET" /\ JNull = JNull).
Proof.
  apply (legacy_returns_only_for_2xx_and_404_on_GET qs_plain
           (replying (legacy_reply 404 quota_headers)) (legacy_reply 404 quota_headers) "GET"
           (fun uri _ opts => Legacy.get qs_plain
                                (replying (legacy_reply 404 quota_headers)) uri opts)
           "/items/999" JUndefined JUndefined fresh JNull);
    [reflexivity | simpl; tauto | reflexivity].
Defined.

(** Every verb puts exactly one request on the wire, with its method, the
    path (a question mark and the encoded options only when these encode to
    something) and, for POST and PUT, the entity as body, whatever the
    network then does. *)
Theorem legacy_one_request_per_call qs_stringify http verb run uri entity opts w :
  In (verb, run) (verbs qs_stringify http) ->
  Legacy.wire (snd (run uri entity opts w)) =
    (Legacy.wire w ++
       [{| Legacy.method := verb;
           Legacy.uri := uri +:+ (if String.eqb (qs_stringify opts) "" then ""
                                  else "?" +:+ qs_stringify opts);
           Legacy.body := if String.eqb verb "POST" || String.eqb verb "PUT"
                          then entity else JUndefined |}])%list.
Proof.
  intros Hin. rewrite (verbs_request _ _ _ _ Hin), exchange_wire.
  unfold Legacy.path_of. destruct (String.eqb (qs_stringify opts) ""); reflexivity.
Qed.

Lemma legacy_one_request_per_call_witness :
  Legacy.wire (snd (Legacy.post qs_plain unreachable "/items" widget_item JUndefined fresh)) =
    [{| Legacy.method := "POST"; Legacy.uri := "/items"; Legacy.body := widget_item |}].
Proof.
  apply (legacy_one_request_per_call qs_plain unreachable "POST"
           (fun uri entity opts => Legacy.post qs_plain unreachable uri entity opts)
           "/items" widget_item JUndefined fresh).
  simpl. tauto.
Defined.

(** The named operations of the 1.1.5 class and the requests they stand
    for; [cloneItem] and [moveItem] are the same request. *)
Theorem legacy_endpoint_table qs_stringify http w :
  qs_stringify JUndefined = "" ->
  let goes_out (run : M Legacy.World JsVal) method uri body :=
    Legacy.wire (snd (run w)) =
      (Legacy.wire w ++
         [{| Legacy.method := method; Legacy.uri := uri; Legacy.body := body |}])%list in
  (forall item, goes_out (Legacy.createItem qs_stringify http item) "POST" "/items" item)
  /\ (forall id, goes_out (Legacy.deleteItem qs_stringify http id)
                          "DELETE" ("/items/" +:+ ToString id) JUndefined)
  /\ (forall id, goes_out (Legacy.getItem qs_stringify http id JUndefined)
                          "GET" ("/items/" +:+ ToString id) JUndefined)
  /\ (forall id payload, goes_out (Legacy.moveItem qs_stringify http id payload)
                                  "POST" ("/items/" +:+ ToString id +:+ "/move") payload)
  /\ (forall id payload, goes_out (Legacy.cloneItem qs_stringify http id payload)
                                  "POST" ("/items/" +:+ ToString id +:+ "/move") payload)
  /\ (forall id item, goes_out (Legacy.updateItem qs_stringify http id item)
                               "PUT" ("/items/" +:+ ToString id) item)
  /\ goes_out (Legacy.listItems qs_stringify http JUndefined) "GET" "/items" JUndefined
  /\ goes_out (Legacy.listRecentItems qs_stringify http JUndefined)
              "GET" "/items/recent" JUndefined
  /\ goes_out (Legacy.listCustomFields qs_stringify http JUndefined)
              "GET" "/custom_fields" JUndefined
  /\ (forall id, goes_out (Legacy.getCustomField qs_stringify http id)
                          "GET" ("/custom_fields/" +:+ ToString id) JUndefined).
Proof.
  intros Hqs. cbn zeta.
  assert (Hpath : forall uri, Legacy.path_of qs_stringify uri JUndefined = uri).
  { intros uri. unfold Legacy.path_of. rewrite Hqs. apply append_empty_r. }
  repeat apply conj; intros;
    unfold Legacy.createItem, Legacy.deleteItem, Legacy.getItem, Legacy.moveItem,
      Legacy.cloneItem, Legacy.updateItem, Legacy.listItems, Legacy.listRecentItems,
      Legacy.listCustomFields, Legacy.getCustomField;
    rewrite ?get_exchange, ?post_exchange, ?put_exchange, ?delete_exchange,
      exchange_wire, Hpath; reflexivity.
Qed.

Lemma legacy_endpoint_table_witness :
  Legacy.wire (snd (Legacy.cloneItem qs_plain unreachable (JNum 5)
                      (JObject [("quantity", JNum 1)]) fresh)) =
    [{| Legacy.method := "POST"; Legacy.uri := "/items/5/move";
        Legacy.body := JObject [("quantity", JNum 1)] |}]
  /\ Legacy.wire (snd (Legacy.getCustomField qs_plain unreachable (JNum 9) fresh)) =
       [{| Legacy.method := "GET"; Legacy.uri := "/custom_fields/9";
           Legacy.body := JUndefined |}].
Proof.
  destruct (legacy_endpoint_table qs_plain unreachable fresh eq_refl)
    as (_ & _ & _ & _ & Hc & _ & _ & _ & _ & Hg).
  split; [apply Hc | apply Hg].
Defined.

(** ** The [Sortly] class before 1.1.5 *)

Lemma verbs_first_request qs_stringify http verb run :
  In (verb, run) (verbs_first qs_stringify http) ->
  forall uri entity opts,
    run uri entity opts =
      exchange_first http
        {| Legacy.method := verb;
           Legacy.uri := Legacy.path_of qs_stringify uri opts;
           Legacy.body := if String.eqb verb "POST" || String.eqb verb "PUT"
                          then entity else JUndefined |}.
Proof.
  intros Hin uri entity opts. unfold verbs_first in Hin. cbn [In] in Hin.
  destruct Hin as [H|[H|[H|[H|[]]]]]; inversion H; subst; reflexivity.
Qed.

Lemma exchange_first_rejected http req w r :
  http req = Legacy.Answered r ->
  (200 <=? im_statusCode r) && (im_statusCode r <? 300) = false ->
  exchange_first http req w =
    LegacyFirst.handleResponse
      (Legacy.of_exn (StatusCodeError
                        (pretty (im_statusCode r) +:+ " - " +:+ stringified (im_body r)) r))
      (sent_req w req).
Proof.
  intros Hnet H2. unfold exchange_first, try_catch, bind, Legacy.baseRequest.
  rewrite Hnet, H2. reflexivity.
Qed.

(** Before 1.1.5 a 404 answer makes every verb return [null], DELETE, PUT
    and POST included: nothing tells the caller that the target does not
    exist. *)
Theorem first_revision_404_is_null_for_every_verb
    qs_stringify http r verb run uri entity opts w :
  (forall req, http req = Legacy.Answered r) ->
  im_statusCode r = 404 ->
  In (verb, run) (verbs_first qs_stringify http) ->
  fst (run uri entity opts w) = Return JNull.
Proof.
  intros Hnet Hsc Hin. rewrite (verbs_first_request _ _ _ _ Hin).
  rewrite (exchange_first_rejected http _ _ r (Hnet _)) by (rewrite Hsc; reflexivity).
  unfold LegacyFirst.handleResponse, Legacy.of_exn.
  cbn [Legacy.statusCode Legacy.response]. rewrite Hsc. reflexivity.
Qed.

Lemma first_revision_404_is_null_for_every_verb_witness :
  fst (LegacyFirst.delete qs_plain (replying (legacy_reply 404 quota_headers))
         "/items/999" JUndefined fresh) = Return JNull.
Proof.
  apply (first_revision_404_is_null_for_every_verb qs_plain
           (replying (legacy_reply 404 quota_headers)) (legacy_reply 404 quota_headers)
           "DELETE"
           (fun uri _ opts => LegacyFirst.delete qs_plain
                                (replying (legacy_reply 404 quota_headers)) uri opts)
           "/items/999" JUndefined JUndefined fresh);
    [reflexivity | reflexivity | simpl; tauto].
Defined.

(** Before 1.1.5 the error for a 5xx answer reads [resp.body] on the
    rejection of the promise, which has no such property: the message is
    "Sortly Server Error (HTTP-<status>). Details: undefined" whatever the
    server sent. *)
Theorem first_revision_server_error_has_no_details
    qs_stringify http r verb run uri entity opts w :
  (forall req, http req = Legacy.Answered r) ->
  500 <= im_statusCode r ->
  In (verb, run) (verbs_first qs_stringify http) ->
  fst (run uri entity opts w) =
    Throw (Error ("Sortly Server Error (HTTP-" +:+ pretty (im_statusCode r)
                  +:+ "). Details: undefined")).
Proof.
  intros Hnet Hsc Hin. rewrite (verbs_first_request _ _ _ _ Hin).
  rewrite (exchange_first_rejected http _ _ r (Hnet _)) by lia.
  unfold LegacyFirst.handleResponse, Legacy.of_exn.
  cbn [Legacy.statusCode Legacy.response Legacy.resp_body Legacy.sc_ge Legacy.sc_lt
       Legacy.sc_text].
  replace ((200 <=? im_statusCode r) && (im_statusCode r <? 300)) with false by lia.
  replace ((400 <=? im_statusCode r) && (im_statusCode r <? 500)) with false by lia.
  replace (500 <=? im_statusCode r) with true by lia. reflexivity.
Qed.

Lemma first_revision_server_error_has_no_details_witness :
  fst (LegacyFirst.get qs_plain (replying (legacy_reply 503 quota_headers))
         "/items" JUndefined fresh) =
    Throw (Error "Sortly Server Error (HTTP-503). Details: undefined").
Proof.
  apply (first_revision_server_error_has_no_details qs_plain
           (replying (legacy_reply 503 quota_headers)) (legacy_reply 503 quota_headers)
           "GET"
           (fun uri _ opts => LegacyFirst.get qs_plain
                                (replying (legacy_reply 503 quota_headers)) uri opts)
           "/items" JUndefined JUndefined fresh);
    [reflexivity | simpl; lia | simpl; tauto].
Defined.

Lemma contains_self s : contains s s.
Proof. exists "", "". cbn. now rewrite append_empty_r. Qed.

Lemma contains_later p t s : contains t s -> contains (p +:+ t) s.
Proof.
  intros (pre & post & ->). exists (p +:+ pre), post. now rewrite append_assoc_r.
Qed.

Lemma ends_with_self s : ends_with s s.
Proof. exists "". reflexivity. Qed.

Lemma ends_with_later p t s : ends_with t s -> ends_with (p +:+ t) s.
Proof. intros (pre & ->). exists (p +:+ pre). now rewrite append_assoc_r. Qed.

(** In 1.1.5 the error for a 400 and for a 5xx answer names the verb and
    the path and ends with "received:" and the body received, serialised as
    JSON: nothing follows the body. *)
Theorem legacy_errors_quote_the_received_body
    qs_stringify http r verb run uri entity opts w :
  (forall req, http req = Legacy.Answered r) ->
  im_statusCode r = 400 \/ 500 <= im_statusCode r ->
  In (verb, run) (verbs qs_stringify http) ->
  exists msg,
    fst (run uri entity opts w) = Throw (Error msg)
    /\ contains msg (" on " +:+ verb +:+ " " +:+ Legacy.path_of qs_stringify uri opts
                     +:+ " (HTTP-" +:+ pretty (im_statusCode r) +:+ ").")
    /\ ends_with msg ("received:" +:+ stringified (im_body r)).
Proof.
  intros Hnet Hsc Hin. rewrite (verbs_request _ _ _ _ Hin).
  rewrite (exchange_rejected http _ _ _ r (Hnet _)) by lia.
  unfold Legacy.handleResponse, Legacy.of_exn.
  cbn [Legacy.statusCode Legacy.response Legacy.message Legacy.sc_ge Legacy.sc_lt
       Legacy.sc_is Legacy.sc_text Legacy.method Legacy.uri].
  replace ((200 <=? im_statusCode r) && (im_statusCode r <? 300)) with false by lia.
  unfold bind, modify, throw. cbn zeta.
  destruct Hsc as [Hsc|Hsc].
  - replace ((400 <=? im_statusCode r) && (im_statusCode r <? 500)) with true by lia.
    replace (im_statusCode r =? 400) with true by lia. cbn [fst].
    eexists. split; [reflexivity|]. split.
    + match goal with
      | |- contains (_ +:+ _ +:+ _ +:+ _ +:+ _ +:+ _ +:+ "). " +:+ ?rest) _ =>
          exists "Request Error", (" " +:+ rest)
      end.
      repeat first [rewrite append_assoc_r | progress cbn [append]]. reflexivity.
    + repeat first [apply ends_with_self | apply ends_with_later].
  - replace ((400 <=? im_statusCode r) && (im_statusCode r <? 500)) with false by lia.
    replace (500 <=? im_statusCode r) with true by lia. cbn [fst].
    eexists. split; [reflexivity|]. split.
    + match goal with
      | |- contains (_ +:+ _ +:+ _ +:+ _ +:+ _ +:+ _ +:+ ")." +:+ ?rest) _ =>
          exists "Sortly Server Error", rest
      end.
      repeat first [rewrite append_assoc_r | progress cbn [append]]. reflexivity.
    + repeat first [apply ends_with_self | apply ends_with_later].
Qed.

Lemma legacy_errors_quote_the_received_body_witness :
  exists msg,
    fst (Legacy.post qs_plain (replying (legacy_reply 400 quota_headers))
           "/items" widget_item JUndefined fresh) = Throw (Error msg)
    /\ contains msg (" on " +:+ "POST" +:+ " " +:+ Legacy.path_of qs_plain "/items" JUndefined
                     +:+ " (HTTP-" +:+ pretty (im_statusCode (legacy_reply 400 quota_headers))
                     +:+ ").")
    /\ ends_with msg ("received:"
                      +:+ stringified (im_body (legacy_reply 400 quota_headers))).
Proof.
  apply (legacy_errors_quote_the_received_body qs_plain
           (replying (legacy_reply 400 quota_headers)) (legacy_reply 400 quota_headers)
           "POST"
           (fun uri entity opts => Legacy.post qs_plain
                                     (replying (legacy_reply 400 quota_headers))
                                     uri entity opts)
           "/items" widget_item JUndefined fresh);
    [reflexivity | left; reflexivity | simpl; tauto].
Defined.

Lemma legacy_unclassified_status_witness :
  fst (Legacy.get qs_plain (replying (legacy_reply 302 quota_headers))
         "/items" JUndefined fresh) = Throw (ReferenceError "responseBody is not defined").
Proof.
  apply (legacy_unclassified_status qs_plain (replying (legacy_reply 302 quota_headers))
           (legacy_reply 302 quota_headers) "GET"
           (fun uri _ opts => Legacy.get qs_plain
                                (replying (legacy_reply 302 quota_headers)) uri opts)
           "/items" JUndefined JUndefined fresh);
    [reflexivity | right; simpl; lia | simpl; tauto].
Defined.
